(** * Construction company records: a model of [construction_company.py]

    The program is an object graph mutated in place: a company holds lists of
    references to design plans, housing projects and road projects, the caller
    holds the same references, and a project holds a reference to its design
    plan.  The model keeps that sharing: objects live in typed heaps (one list
    per class, an address is an index, allocation appends), and every field
    that holds an object in Python holds an address here.  A method becomes a
    function from the receiver (and the heap it reads through) to the value
    it returns and the receiver after the call. *)

From Stdlib Require Import ZArith String Ascii DecimalString.
From stdpp Require Import base option list strings.

#[local] Open Scope Z_scope.

(** ** What the interpreter supplies

    The program stores floats and timestamps and prints them, and upper-cases
    one string; it never computes with them.  They are taken from the
    runtime. *)
Class PyRuntime := {
  pyfloat : Type;
  float_str : pyfloat -> string;          (* a float inside an f-string *)
  datetime : Type;
  strftime_date : datetime -> string;     (* strftime('%Y-%m-%d') *)
  strftime_datetime : datetime -> string; (* strftime('%Y-%m-%d %H:%M:%S') *)
  str_upper : string -> string            (* str.upper() *)
}.

(** An int inside an f-string: decimal digits, a leading minus sign (the
    interpreter's cap on the number of digits it converts is left out). *)
Definition str_int (z : Z) : string := NilZero.string_of_int (Z.to_int z).

(** [len(xs)] *)
Definition len {A} (xs : list A) : Z := Z.of_nat (length xs).

(** [sum(gen)]: start from 0 and add the items in order. *)
Definition py_sum (gen : list Z) : Z := fold_left Z.add gen 0.

(** [s.startswith('Error:')], how a caller tells a failure from a success. *)
Definition is_error (msg : string) : bool := String.prefix "Error:" msg.

(** A reference: the index of the object in the heap of its class. *)
Abbreviation addr := nat (only parsing).

Section Values.
Context `{RT : PyRuntime}.

(** The values the program puts into its dict literals. *)
Inductive pyvalue :=
| VStr (s : string)
| VInt (z : Z)
| VFloat (x : pyfloat)
| VBool (b : bool)
| VSpecs (d : list (string * string)).

(** A dict keeps its keys in insertion order. *)
Definition pydict := list (string * pyvalue).

Fixpoint dict_get {V} (k : string) (d : list (string * V)) : option V :=
  match d with
  | [] => None
  | (k', v) :: d' => if String.eqb k k' then Some v else dict_get k d'
  end.

(** [d[k] = v]: overwrite in place when the key is there, else append. *)
Fixpoint dict_set {V} (k : string) (v : V) (d : list (string * V)) : list (string * V) :=
  match d with
  | [] => [(k, v)]
  | (k', v') :: d' => if String.eqb k k' then (k', v) :: d' else (k', v') :: dict_set k v d'
  end.

(** A value inside an f-string. *)
Definition py_str (v : pyvalue) : string :=
  match v with
  | VStr s => s
  | VInt z => str_int z
  | VFloat x => float_str x
  | VBool true => "True"
  | VBool false => "False"
  | VSpecs _ => "{...}"
  end.

End Values.

(** ** class DesignPlan *)
Module DesignPlan.
Section defs.
Context `{RT : PyRuntime}.

Record t := mk {
  plan_id : string;
  plan_type : string;
  description : string;
  area_sqft : pyfloat;
  estimated_cost : pyfloat;
  created_date : datetime;
  approved : bool;
  specifications : list (string * string)
}.

Definition __init__ (now : datetime) (plan_id plan_type description : string)
    (area_sqft estimated_cost : pyfloat) : t :=
  {| plan_id := plan_id; plan_type := plan_type; description := description;
     area_sqft := area_sqft; estimated_cost := estimated_cost;
     created_date := now; approved := false; specifications := [] |}.

Definition set_specifications (d : list (string * string)) (self : t) : t :=
  {| plan_id := plan_id self; plan_type := plan_type self;
     description := description self; area_sqft := area_sqft self;
     estimated_cost := estimated_cost self; created_date := created_date self;
     approved := approved self; specifications := d |}.

Definition set_approved (b : bool) (self : t) : t :=
  {| plan_id := plan_id self; plan_type := plan_type self;
     description := description self; area_sqft := area_sqft self;
     estimated_cost := estimated_cost self; created_date := created_date self;
     approved := b; specifications := specifications self |}.

Definition add_specification (self : t) (key value : string) : t :=
  set_specifications (dict_set key value (specifications self)) self.

Definition approve_plan (now : datetime) (self : t) : string * t :=
  let self := set_approved true self in
  ("Plan " +:+ plan_id self +:+ " approved on " +:+ strftime_date now, self).

(** The snapshot takes the scalar fields by value; its [specifications] entry
    is the plan's own dict, whose contents at the call are what is kept here
    (no method writes through a snapshot). *)
Definition get_details (self : t) : pydict :=
  [ ("plan_id", VStr (plan_id self));
    ("type", VStr (plan_type self));
    ("description", VStr (description self));
    ("area_sqft", VFloat (area_sqft self));
    ("estimated_cost", VFloat (estimated_cost self));
    ("approved", VBool (approved self));
    ("specifications", VSpecs (specifications self));
    ("created_date", VStr (strftime_date (created_date self))) ].

End defs.
End DesignPlan.

(** ** class HousingProject *)
Module HousingProject.
Section defs.
Context `{RT : PyRuntime}.

Record t := mk {
  project_id : string;
  project_name : string;
  housing_type : string;
  num_units : Z;
  design_plan : option addr;
  status : string;
  start_date : option datetime;
  completion_date : option datetime;
  materials : list pydict;
  workers_assigned : Z
}.

Definition __init__ (project_id project_name housing_type : string) (num_units : Z) : t :=
  {| project_id := project_id; project_name := project_name;
     housing_type := housing_type; num_units := num_units;
     design_plan := None; status := "planned"; start_date := None;
     completion_date := None; materials := []; workers_assigned := 0 |}.

Definition set_design_plan (p : option addr) (self : t) : t :=
  {| project_id := project_id self; project_name := project_name self;
     housing_type := housing_type self; num_units := num_units self;
     design_plan := p; status := status self; start_date := start_date self;
     completion_date := completion_date self; materials := materials self;
     workers_assigned := workers_assigned self |}.

Definition set_status (s : string) (self : t) : t :=
  {| project_id := project_id self; project_name := project_name self;
     housing_type := housing_type self; num_units := num_units self;
     design_plan := design_plan self; status := s; start_date := start_date self;
     completion_date := completion_date self; materials := materials self;
     workers_assigned := workers_assigned self |}.

Definition set_start_date (d : option datetime) (self : t) : t :=
  {| project_id := project_id self; project_name := project_name self;
     housing_type := housing_type self; num_units := num_units self;
     design_plan := design_plan self; status := status self; start_date := d;
     completion_date := completion_date self; materials := materials self;
     workers_assigned := workers_assigned self |}.

Definition set_completion_date (d : option datetime) (self : t) : t :=
  {| project_id := project_id self; project_name := project_name self;
     housing_type := housing_type self; num_units := num_units self;
     design_plan := design_plan self; status := status self;
     start_date := start_date self; completion_date := d;
     materials := materials self; workers_assigned := workers_assigned self |}.

Definition set_materials (m : list pydict) (self : t) : t :=
  {| project_id := project_id self; project_name := project_name self;
     housing_type := housing_type self; num_units := num_units self;
     design_plan := design_plan self; status := status self;
     start_date := start_date self; completion_date := completion_date self;
     materials := m; workers_assigned := workers_assigned self |}.

Definition set_workers_assigned (n : Z) (self : t) : t :=
  {| project_id := project_id self; project_name := project_name self;
     housing_type := housing_type self; num_units := num_units self;
     design_plan := design_plan self; status := status self;
     start_date := start_date self; completion_date := completion_date self;
     materials := materials self; workers_assigned := n |}.

(** [design_plan] is the reference passed in; the plan is read through the
    heap.  [None] is a reference to no object, which no caller can hold. *)
Definition assign_design_plan (plans : list DesignPlan.t) (self : t) (design_plan : addr)
    : option (string * t) :=
  plan ← plans !! design_plan;
  if negb (DesignPlan.approved plan) then
    Some ("Error: Design plan must be approved first", self)
  else if negb (String.eqb (DesignPlan.plan_type plan) "housing") then
    Some ("Error: Design plan type '" +:+ DesignPlan.plan_type plan
            +:+ "' is not compatible with housing projects", self)
  else
    let self := set_design_plan (Some design_plan) self in
    Some ("Design plan " +:+ DesignPlan.plan_id plan +:+ " assigned to "
            +:+ project_name self, self).

(** [self.design_plan and self.design_plan.approved]: an object is truthy, so
    the first conjunct asks whether the field is not None. *)
Definition start_construction (plans : list DesignPlan.t) (now : datetime) (self : t)
    (workers : Z) : option (string * t) :=
  match design_plan self with
  | None => Some ("Error: Approved design plan required to start construction", self)
  | Some p =>
      plan ← plans !! p;
      if DesignPlan.approved plan then
        let self := set_status "in_progress" self in
        let self := set_start_date (Some now) self in
        let self := set_workers_assigned workers self in
        Some ("Construction started for " +:+ project_name self +:+ " with "
                +:+ str_int workers +:+ " workers", self)
      else
        Some ("Error: Approved design plan required to start construction", self)
  end.

Definition add_materials (self : t) (material : string) (quantity : pyfloat) (unit : string) : t :=
  set_materials
    (materials self ++ [[("material", VStr material); ("quantity", VFloat quantity);
                         ("unit", VStr unit)]])
    self.

Definition complete_project (now : datetime) (self : t) : string * t :=
  let self := set_status "completed" self in
  let self := set_completion_date (Some now) self in
  ("Housing project " +:+ project_name self +:+ " completed on " +:+ strftime_date now, self).

Definition get_project_info (self : t) : pydict :=
  [ ("project_id", VStr (project_id self));
    ("name", VStr (project_name self));
    ("type", VStr (housing_type self));
    ("units", VInt (num_units self));
    ("status", VStr (status self));
    ("workers", VInt (workers_assigned self));
    ("materials_count", VInt (len (materials self)));
    ("has_design_plan", VBool (bool_decide (design_plan self <> None))) ].

End defs.
End HousingProject.

(** ** class RoadProject *)
Module RoadProject.
Section defs.
Context `{RT : PyRuntime}.

Record t := mk {
  project_id : string;
  road_name : string;
  road_type : string;
  length_km : pyfloat;
  design_plan : option addr;
  status : string;
  lanes : Z;
  surface_type : string;
  start_date : option datetime;
  completion_date : option datetime;
  workers_assigned : Z;
  equipment : list pydict
}.

Definition __init__ (project_id road_name road_type : string) (length_km : pyfloat) : t :=
  {| project_id := project_id; road_name := road_name; road_type := road_type;
     length_km := length_km; design_plan := None; status := "planned";
     lanes := 2; surface_type := "asphalt"; start_date := None;
     completion_date := None; workers_assigned := 0; equipment := [] |}.

Definition set_design_plan (p : option addr) (self : t) : t :=
  {| project_id := project_id self; road_name := road_name self;
     road_type := road_type self; length_km := length_km self;
     design_plan := p; status := status self; lanes := lanes self;
     surface_type := surface_type self; start_date := start_date self;
     completion_date := completion_date self;
     workers_assigned := workers_assigned self; equipment := equipment self |}.

Definition set_status (s : string) (self : t) : t :=
  {| project_id := project_id self; road_name := road_name self;
     road_type := road_type self; length_km := length_km self;
     design_plan := design_plan self; status := s; lanes := lanes self;
     surface_type := surface_type self; start_date := start_date self;
     completion_date := completion_date self;
     workers_assigned := workers_assigned self; equipment := equipment self |}.

Definition set_lanes (n : Z) (self : t) : t :=
  {| project_id := project_id self; road_name := road_name self;
     road_type := road_type self; length_km := length_km self;
     design_plan := design_plan self; status := status self; lanes := n;
     surface_type := surface_type self; start_date := start_date self;
     completion_date := completion_date self;
     workers_assigned := workers_assigned self; equipment := equipment self |}.

Definition set_surface_type (s : string) (self : t) : t :=
  {| project_id := project_id self; road_name := road_name self;
     road_type := road_type self; length_km := length_km self;
     design_plan := design_plan self; status := status self; lanes := lanes self;
     surface_type := s; start_date := start_date self;
     completion_date := completion_date self;
     workers_assigned := workers_assigned self; equipment := equipment self |}.

Definition set_start_date (d : option datetime) (self : t) : t :=
  {| project_id := project_id self; road_name := road_name self;
     road_type := road_type self; length_km := length_km self;
     design_plan := design_plan self; status := status self; lanes := lanes self;
     surface_type := surface_type self; start_date := d;
     completion_date := completion_date self;
     workers_assigned := workers_assigned self; equipment := equipment self |}.

Definition set_completion_date (d : option datetime) (self : t) : t :=
  {| project_id := project_id self; road_name := road_name self;
     road_type := road_type self; length_km := length_km self;
     design_plan := design_plan self; status := status self; lanes := lanes self;
     surface_type := surface_type self; start_date := start_date self;
     completion_date := d;
     workers_assigned := workers_assigned self; equipment := equipment self |}.

Definition set_workers_assigned (n : Z) (self : t) : t :=
  {| project_id := project_id self; road_name := road_name self;
     road_type := road_type self; length_km := length_km self;
     design_plan := design_plan self; status := status self; lanes := lanes self;
     surface_type := surface_type self; start_date := start_date self;
     completion_date := completion_date self;
     workers_assigned := n; equipment := equipment self |}.

Definition set_equipment (e : list pydict) (self : t) : t :=
  {| project_id := project_id self; road_name := road_name self;
     road_type := road_type self; length_km := length_km self;
     design_plan := design_plan self; status := status self; lanes := lanes self;
     surface_type := surface_type self; start_date := start_date self;
     completion_date := completion_date self;
     workers_assigned := workers_assigned self; equipment := e |}.

Definition assign_design_plan (plans : list DesignPlan.t) (self : t) (design_plan : addr)
    : option (string * t) :=
  plan ← plans !! design_plan;
  if negb (DesignPlan.approved plan) then
    Some ("Error: Design plan must be approved first", self)
  else if negb (String.eqb (DesignPlan.plan_type plan) "road") then
    Some ("Error: Design plan type '" +:+ DesignPlan.plan_type plan
            +:+ "' is not compatible with road projects", self)
  else
    let self := set_design_plan (Some design_plan) self in
    Some ("Design plan " +:+ DesignPlan.plan_id plan +:+ " assigned to "
            +:+ road_name self, self).

Definition set_road_specs (self : t) (lanes : Z) (surface_type : string) : t :=
  let self := set_lanes lanes self in
  set_surface_type surface_type self.

Definition start_construction (plans : list DesignPlan.t) (now : datetime) (self : t)
    (workers : Z) : option (string * t) :=
  match design_plan self with
  | None => Some ("Error: Approved design plan required to start construction", self)
  | Some p =>
      plan ← plans !! p;
      if DesignPlan.approved plan then
        let self := set_status "in_progress" self in
        let self := set_start_date (Some now) self in
        let self := set_workers_assigned workers self in
        Some ("Road construction started for " +:+ road_name self +:+ " with "
                +:+ str_int workers +:+ " workers", self)
      else
        Some ("Error: Approved design plan required to start construction", self)
  end.

Definition add_equipment (self : t) (equipment_name : string) (quantity : Z) : t :=
  set_equipment
    (equipment self ++ [[("equipment", VStr equipment_name); ("quantity", VInt quantity)]])
    self.

Definition schedule_maintenance (self : t) : string * t :=
  if String.eqb (status self) "completed" then
    let self := set_status "maintenance" self in
    ("Maintenance scheduled for " +:+ road_name self, self)
  else
    ("Error: Road must be completed before scheduling maintenance", self).

Definition complete_project (now : datetime) (self : t) : string * t :=
  let self := set_status "completed" self in
  let self := set_completion_date (Some now) self in
  ("Road project " +:+ road_name self +:+ " completed on " +:+ strftime_date now, self).

Definition get_project_info (self : t) : pydict :=
  [ ("project_id", VStr (project_id self));
    ("name", VStr (road_name self));
    ("type", VStr (road_type self));
    ("length_km", VFloat (length_km self));
    ("lanes", VInt (lanes self));
    ("surface", VStr (surface_type self));
    ("status", VStr (status self));
    ("workers", VInt (workers_assigned self));
    ("equipment_count", VInt (len (equipment self)));
    ("has_design_plan", VBool (bool_decide (design_plan self <> None))) ].

End defs.
End RoadProject.

(** ** class ConstructionCompany

    The three collections hold references, in insertion order.  A method that
    creates an object returns the new reference, the heap with the object
    appended, and the company after the call. *)
Module ConstructionCompany.
Section defs.
Context `{RT : PyRuntime}.

Record t := mk {
  company_name : string;
  housing_projects : list addr;
  road_projects : list addr;
  design_plans : list addr;
  total_workers : Z;
  active_projects : Z
}.

Definition __init__ (company_name : string) : t :=
  {| company_name := company_name; housing_projects := []; road_projects := [];
     design_plans := []; total_workers := 0; active_projects := 0 |}.

Definition set_housing_projects (l : list addr) (self : t) : t :=
  {| company_name := company_name self; housing_projects := l;
     road_projects := road_projects self; design_plans := design_plans self;
     total_workers := total_workers self; active_projects := active_projects self |}.

Definition set_road_projects (l : list addr) (self : t) : t :=
  {| company_name := company_name self; housing_projects := housing_projects self;
     road_projects := l; design_plans := design_plans self;
     total_workers := total_workers self; active_projects := active_projects self |}.

Definition set_design_plans (l : list addr) (self : t) : t :=
  {| company_name := company_name self; housing_projects := housing_projects self;
     road_projects := road_projects self; design_plans := l;
     total_workers := total_workers self; active_projects := active_projects self |}.

Definition create_design_plan (plans : list DesignPlan.t) (now : datetime) (self : t)
    (plan_id plan_type description : string) (area_sqft estimated_cost : pyfloat)
    : addr * list DesignPlan.t * t :=
  let plan := length plans in
  let plans := plans ++ [DesignPlan.__init__ now plan_id plan_type description
                           area_sqft estimated_cost] in
  let self := set_design_plans (design_plans self ++ [plan]) self in
  (plan, plans, self).

Definition create_housing_project (housings : list HousingProject.t) (self : t)
    (project_id project_name housing_type : string) (num_units : Z)
    : addr * list HousingProject.t * t :=
  let project := length housings in
  let housings := housings ++ [HousingProject.__init__ project_id project_name
                                 housing_type num_units] in
  let self := set_housing_projects (housing_projects self ++ [project]) self in
  (project, housings, self).

Definition create_road_project (roads : list RoadProject.t) (self : t)
    (project_id road_name road_type : string) (length_km : pyfloat)
    : addr * list RoadProject.t * t :=
  let project := length roads in
  let roads := roads ++ [RoadProject.__init__ project_id road_name road_type length_km] in
  let self := set_road_projects (road_projects self ++ [project]) self in
  (project, roads, self).

(** The objects a collection refers to, in the collection's order. *)
Definition deref_all {A} (heap : list A) (refs : list addr) : option (list A) :=
  mapM (fun a => heap !! a) refs.

Definition get_all_projects (housings : list HousingProject.t) (roads : list RoadProject.t)
    (self : t) : option pydict :=
  hs ← deref_all housings (housing_projects self);
  rs ← deref_all roads (road_projects self);
  let in_progress_housing :=
    py_sum (map (fun _ => 1)
              (List.filter (fun p => String.eqb (HousingProject.status p) "in_progress") hs)) in
  let in_progress_roads :=
    py_sum (map (fun _ => 1)
              (List.filter (fun p => String.eqb (RoadProject.status p) "in_progress") rs)) in
  Some [ ("company_name", VStr (company_name self));
         ("total_housing_projects", VInt (len (housing_projects self)));
         ("total_road_projects", VInt (len (road_projects self)));
         ("total_design_plans", VInt (len (design_plans self)));
         ("active_housing_projects", VInt in_progress_housing);
         ("active_road_projects", VInt in_progress_roads);
         ("total_active_projects", VInt (in_progress_housing + in_progress_roads)) ].

Definition list_housing_projects (housings : list HousingProject.t) (self : t)
    : option (list pydict) :=
  hs ← deref_all housings (housing_projects self);
  Some (map HousingProject.get_project_info hs).

Definition list_road_projects (roads : list RoadProject.t) (self : t)
    : option (list pydict) :=
  rs ← deref_all roads (road_projects self);
  Some (map RoadProject.get_project_info rs).

Definition list_design_plans (plans : list DesignPlan.t) (self : t)
    : option (list pydict) :=
  ps ← deref_all plans (design_plans self);
  Some (map DesignPlan.get_details ps).

Definition newline : string := String (ascii_of_nat 10) EmptyString.

(** ['='*60] *)
Definition banner : string := string_of_list_ascii (repeat "="%char 60).

(** [d[k]] inside an f-string. *)
Definition item (d : pydict) (k : string) : option string := py_str <$> dict_get k d.

Definition housing_line (project : HousingProject.t) : option string :=
  let info := HousingProject.get_project_info project in
  name ← item info "name"; type ← item info "type"; status ← item info "status";
  Some ("  - " +:+ name +:+ " (" +:+ type +:+ "): " +:+ status +:+ newline).

Definition road_line (project : RoadProject.t) : option string :=
  let info := RoadProject.get_project_info project in
  name ← item info "name"; type ← item info "type";
  length_km ← item info "length_km"; status ← item info "status";
  Some ("  - " +:+ name +:+ " (" +:+ type +:+ ", " +:+ length_km +:+ "km): "
          +:+ status +:+ newline).

Definition generate_report (housings : list HousingProject.t) (roads : list RoadProject.t)
    (now : datetime) (self : t) : option string :=
  summary ← get_all_projects housings roads self;
  total_housing ← item summary "total_housing_projects";
  total_road ← item summary "total_road_projects";
  total_plans ← item summary "total_design_plans";
  total_active ← item summary "total_active_projects";
  let report :=
    newline +:+ banner +:+ newline
    +:+ str_upper (company_name self) +:+ " - CONSTRUCTION COMPANY REPORT" +:+ newline
    +:+ banner +:+ newline +:+ newline
    +:+ "SUMMARY:" +:+ newline +:+ "--------" +:+ newline
    +:+ "Total Housing Projects: " +:+ total_housing +:+ newline
    +:+ "Total Road Projects: " +:+ total_road +:+ newline
    +:+ "Total Design Plans: " +:+ total_plans +:+ newline
    +:+ "Active Projects: " +:+ total_active +:+ newline +:+ newline
    +:+ "HOUSING PROJECTS:" +:+ newline +:+ "----------------" +:+ newline in
  hs ← deref_all housings (housing_projects self);
  hlines ← mapM housing_line hs;
  let report := fold_left String.append hlines report in
  let report :=
    report +:+ newline +:+ "ROAD PROJECTS:" +:+ newline +:+ "-------------" +:+ newline in
  rs ← deref_all roads (road_projects self);
  rlines ← mapM road_line rs;
  let report := fold_left String.append rlines report in
  Some (report +:+ newline +:+ banner +:+ newline
          +:+ "Generated on: " +:+ strftime_datetime now +:+ newline
          +:+ banner +:+ newline).

End defs.
End ConstructionCompany.

(** ** The object graph and the calls a client can make *)
Section Machine.
Context `{RT : PyRuntime}.

Record World := mkWorld {
  plan_heap : list DesignPlan.t;
  housing_heap : list HousingProject.t;
  road_heap : list RoadProject.t;
  company_heap : list ConstructionCompany.t
}.

(** Before the first constructor call. *)
Definition empty_world : World := mkWorld [] [] [] [].

Definition set_plan_heap (h : list DesignPlan.t) (w : World) : World :=
  mkWorld h (housing_heap w) (road_heap w) (company_heap w).

Definition set_housing_heap (h : list HousingProject.t) (w : World) : World :=
  mkWorld (plan_heap w) h (road_heap w) (company_heap w).

Definition set_road_heap (h : list RoadProject.t) (w : World) : World :=
  mkWorld (plan_heap w) (housing_heap w) h (company_heap w).

Definition set_company_heap (h : list ConstructionCompany.t) (w : World) : World :=
  mkWorld (plan_heap w) (housing_heap w) (road_heap w) h.

(** Every constructor and method of the four classes, applied to references. *)
Inductive op :=
| DesignPlan_new (plan_id plan_type description : string) (area_sqft estimated_cost : pyfloat)
| DesignPlan_add_specification (p : addr) (key value : string)
| DesignPlan_approve_plan (p : addr)
| DesignPlan_get_details (p : addr)
| Housing_new (project_id project_name housing_type : string) (num_units : Z)
| Housing_assign_design_plan (h p : addr)
| Housing_start_construction (h : addr) (workers : Z)
| Housing_add_materials (h : addr) (material : string) (quantity : pyfloat) (unit : string)
| Housing_complete_project (h : addr)
| Housing_get_project_info (h : addr)
| Road_new (project_id road_name road_type : string) (length_km : pyfloat)
| Road_assign_design_plan (r p : addr)
| Road_set_road_specs (r : addr) (lanes : Z) (surface_type : string)
| Road_start_construction (r : addr) (workers : Z)
| Road_add_equipment (r : addr) (equipment_name : string) (quantity : Z)
| Road_schedule_maintenance (r : addr)
| Road_complete_project (r : addr)
| Road_get_project_info (r : addr)
| Company_new (company_name : string)
| Company_create_design_plan (c : addr) (plan_id plan_type description : string)
    (area_sqft estimated_cost : pyfloat)
| Company_create_housing_project (c : addr) (project_id project_name housing_type : string)
    (num_units : Z)
| Company_create_road_project (c : addr) (project_id road_name road_type : string)
    (length_km : pyfloat)
| Company_get_all_projects (c : addr)
| Company_list_housing_projects (c : addr)
| Company_list_road_projects (c : addr)
| Company_list_design_plans (c : addr)
| Company_generate_report (c : addr).

(** What a call returns: nothing, a string, a reference to a new object, a
    dict, or a list of dicts. *)
Inductive result :=
| RNone
| RStr (s : string)
| RPlan (a : addr)
| RHousing (a : addr)
| RRoad (a : addr)
| RCompany (a : addr)
| RDict (d : pydict)
| RList (l : list pydict).

(** One call, made when the clock reads [now].  [None] only when a reference
    names no object. *)
Definition call (now : datetime) (o : op) (w : World) : option (result * World) :=
  match o with
  | DesignPlan_new plan_id plan_type description area_sqft estimated_cost =>
      let plan := DesignPlan.__init__ now plan_id plan_type description
                    area_sqft estimated_cost in
      Some (RPlan (length (plan_heap w)), set_plan_heap (plan_heap w ++ [plan]) w)
  | DesignPlan_add_specification p key value =>
      self ← plan_heap w !! p;
      let self := DesignPlan.add_specification self key value in
      Some (RNone, set_plan_heap (<[p := self]> (plan_heap w)) w)
  | DesignPlan_approve_plan p =>
      self ← plan_heap w !! p;
      let '(msg, self) := DesignPlan.approve_plan now self in
      Some (RStr msg, set_plan_heap (<[p := self]> (plan_heap w)) w)
  | DesignPlan_get_details p =>
      self ← plan_heap w !! p;
      Some (RDict (DesignPlan.get_details self), w)
  | Housing_new project_id project_name housing_type num_units =>
      let project := HousingProject.__init__ project_id project_name housing_type
                       num_units in
      Some (RHousing (length (housing_heap w)),
            set_housing_heap (housing_heap w ++ [project]) w)
  | Housing_assign_design_plan h p =>
      self ← housing_heap w !! h;
      '(msg, self) ← HousingProject.assign_design_plan (plan_heap w) self p;
      Some (RStr msg, set_housing_heap (<[h := self]> (housing_heap w)) w)
  | Housing_start_construction h workers =>
      self ← housing_heap w !! h;
      '(msg, self) ← HousingProject.start_construction (plan_heap w) now self workers;
      Some (RStr msg, set_housing_heap (<[h := self]> (housing_heap w)) w)
  | Housing_add_materials h material quantity unit =>
      self ← housing_heap w !! h;
      let self := HousingProject.add_materials self material quantity unit in
      Some (RNone, set_housing_heap (<[h := self]> (housing_heap w)) w)
  | Housing_complete_project h =>
      self ← housing_heap w !! h;
      let '(msg, self) := HousingProject.complete_project now self in
      Some (RStr msg, set_housing_heap (<[h := self]> (housing_heap w)) w)
  | Housing_get_project_info h =>
      self ← housing_heap w !! h;
      Some (RDict (HousingProject.get_project_info self), w)
  | Road_new project_id road_name road_type length_km =>
      let project := RoadProject.__init__ project_id road_name road_type length_km in
      Some (RRoad (length (road_heap w)), set_road_heap (road_heap w ++ [project]) w)
  | Road_assign_design_plan r p =>
      self ← road_heap w !! r;
      '(msg, self) ← RoadProject.assign_design_plan (plan_heap w) self p;
      Some (RStr msg, set_road_heap (<[r := self]> (road_heap w)) w)
  | Road_set_road_specs r lanes surface_type =>
      self ← road_heap w !! r;
      let self := RoadProject.set_road_specs self lanes surface_type in
      Some (RNone, set_road_heap (<[r := self]> (road_heap w)) w)
  | Road_start_construction r workers =>
      self ← road_heap w !! r;
      '(msg, self) ← RoadProject.start_construction (plan_heap w) now self workers;
      Some (RStr msg, set_road_heap (<[r := self]> (road_heap w)) w)
  | Road_add_equipment r equipment_name quantity =>
      self ← road_heap w !! r;
      let self := RoadProject.add_equipment self equipment_name quantity in
      Some (RNone, set_road_heap (<[r := self]> (road_heap w)) w)
  | Road_schedule_maintenance r =>
      self ← road_heap w !! r;
      let '(msg, self) := RoadProject.schedule_maintenance self in
      Some (RStr msg, set_road_heap (<[r := self]> (road_heap w)) w)
  | Road_complete_project r =>
      self ← road_heap w !! r;
      let '(msg, self) := RoadProject.complete_project now self in
      Some (RStr msg, set_road_heap (<[r := self]> (road_heap w)) w)
  | Road_get_project_info r =>
      self ← road_heap w !! r;
      Some (RDict (RoadProject.get_project_info self), w)
  | Company_new company_name =>
      let company := ConstructionCompany.__init__ company_name in
      Some (RCompany (length (company_heap w)),
            set_company_heap (company_heap w ++ [company]) w)
  | Company_create_design_plan c plan_id plan_type description area_sqft estimated_cost =>
      self ← company_heap w !! c;
      let '(plan, plans, self) :=
        ConstructionCompany.create_design_plan (plan_heap w) now self plan_id plan_type
          description area_sqft estimated_cost in
      Some (RPlan plan, set_company_heap (<[c := self]> (company_heap w))
                          (set_plan_heap plans w))
  | Company_create_housing_project c project_id project_name housing_type num_units =>
      self ← company_heap w !! c;
      let '(project, housings, self) :=
        ConstructionCompany.create_housing_project (housing_heap w) self project_id
          project_name housing_type num_units in
      Some (RHousing project, set_company_heap (<[c := self]> (company_heap w))
                                (set_housing_heap housings w))
  | Company_create_road_project c project_id road_name road_type length_km =>
      self ← company_heap w !! c;
      let '(project, roads, self) :=
        ConstructionCompany.create_road_project (road_heap w) self project_id road_name
          road_type length_km in
      Some (RRoad project, set_company_heap (<[c := self]> (company_heap w))
                             (set_road_heap roads w))
  | Company_get_all_projects c =>
      self ← company_heap w !! c;
      summary ← ConstructionCompany.get_all_projects (housing_heap w) (road_heap w) self;
      Some (RDict summary, w)
  | Company_list_housing_projects c =>
      self ← company_heap w !! c;
      l ← ConstructionCompany.list_housing_projects (housing_heap w) self;
      Some (RList l, w)
  | Company_list_road_projects c =>
      self ← company_heap w !! c;
      l ← ConstructionCompany.list_road_projects (road_heap w) self;
      Some (RList l, w)
  | Company_list_design_plans c =>
      self ← company_heap w !! c;
      l ← ConstructionCompany.list_design_plans (plan_heap w) self;
      Some (RList l, w)
  | Company_generate_report c =>
      self ← company_heap w !! c;
      report ← ConstructionCompany.generate_report (housing_heap w) (road_heap w) now self;
      Some (RStr report, w)
  end.

(** A session: calls in order from the empty graph, each with the clock
    reading it was made at; the log pairs each call with what it returned. *)
Definition event : Type := datetime * op.
Definition log : Type := list (op * result).

Definition exec (st : option (log * World)) (e : event) : option (log * World) :=
  '(l, w) ← st;
  '(r, w') ← call e.1 e.2 w;
  Some (l ++ [(e.2, r)], w').

Definition run (es : list event) : option (log * World) :=
  fold_left exec es (Some ([], empty_world)).

Definition reachable (w : World) : Prop := exists es l, run es = Some (l, w).

(** *** What the claims speak of *)

(** A design plan is assigned and that plan is approved. *)
Definition has_approved_plan (plans : list DesignPlan.t) (ref : option addr) : Prop :=
  exists p plan, ref = Some p /\ plans !! p = Some plan /\ DesignPlan.approved plan = true.

(** A design plan reference is unset, or leads to an approved plan of the
    given category. *)
Definition plan_ok (category : string) (plans : list DesignPlan.t) (ref : option addr) : Prop :=
  forall p, ref = Some p ->
    exists plan, plans !! p = Some plan /\ DesignPlan.approved plan = true /\
                 DesignPlan.plan_type plan = category.

Definition design_plan_invariant (w : World) : Prop :=
  (forall h self, housing_heap w !! h = Some self ->
     plan_ok "housing" (plan_heap w) (HousingProject.design_plan self)) /\
  (forall r self, road_heap w !! r = Some self ->
     plan_ok "road" (plan_heap w) (RoadProject.design_plan self)).

(** Every reference in a collection names an object. *)
Definition refs_valid {A} (heap : list A) (refs : list addr) : Prop :=
  Forall (fun a => (a < length heap)%nat) refs.

Definition well_formed (w : World) : Prop :=
  forall c self, company_heap w !! c = Some self ->
    refs_valid (plan_heap w) (ConstructionCompany.design_plans self) /\
    refs_valid (housing_heap w) (ConstructionCompany.housing_projects self) /\
    refs_valid (road_heap w) (ConstructionCompany.road_projects self).

(** The plan a logged call created through company [c]'s
    [create_design_plan], if it is such a call. *)
Definition created_plan (c : addr) (e : op * result) : option addr :=
  match e with
  | (Company_create_design_plan c' _ _ _ _ _, RPlan a) =>
      if decide (c' = c) then Some a else None
  | _ => None
  end.

Definition created_plans (c : addr) (l : log) : list addr := omap (created_plan c) l.

(** How many of a company's housing (road) projects have status
    [in_progress] in the current graph. *)
Definition housing_in_progress (w : World) (a : addr) : bool :=
  match housing_heap w !! a with
  | Some p => String.eqb (HousingProject.status p) "in_progress"
  | None => false
  end.

Definition road_in_progress (w : World) (a : addr) : bool :=
  match road_heap w !! a with
  | Some p => String.eqb (RoadProject.status p) "in_progress"
  | None => false
  end.

Definition active_housing (w : World) (self : ConstructionCompany.t) : nat :=
  length (List.filter (housing_in_progress w) (ConstructionCompany.housing_projects self)).

Definition active_roads (w : World) (self : ConstructionCompany.t) : nat :=
  length (List.filter (road_in_progress w) (ConstructionCompany.road_projects self)).




(** What links a company's [design_plans] to the log: the references its
    [create_design_plan] returned, in order, all distinct and all live. *)
Definition registry_log_invariant (c : addr) (l : log) (w : World) : Prop :=
  Forall (fun a => (a < length (plan_heap w))%nat) (created_plans c l) /\
  NoDup (created_plans c l) /\
  match company_heap w !! c with
  | Some self => ConstructionCompany.design_plans self = created_plans c l
  | None => created_plans c l = []
  end.

(** *** Further notions: line items, factories, life cycle, locality *)

(** A logged call adds a line item to housing project [h] (road project [r]). *)
Definition adds_materials (h : addr) (e : op * result) : bool :=
  match e.1 with
  | Housing_add_materials h' _ _ _ => bool_decide (h' = h)
  | _ => false
  end.

Definition adds_equipment (r : addr) (e : op * result) : bool :=
  match e.1 with
  | Road_add_equipment r' _ _ => bool_decide (r' = r)
  | _ => false
  end.

(** The project a logged call created through company [c]'s
    [create_housing_project] ([create_road_project]), if it is such a call. *)
Definition created_housing (c : addr) (e : op * result) : option addr :=
  match e with
  | (Company_create_housing_project c' _ _ _ _, RHousing a) =>
      if decide (c' = c) then Some a else None
  | _ => None
  end.

Definition created_road (c : addr) (e : op * result) : option addr :=
  match e with
  | (Company_create_road_project c' _ _ _ _, RRoad a) =>
      if decide (c' = c) then Some a else None
  | _ => None
  end.

Definition created_housings (c : addr) (l : log) : list addr := omap (created_housing c) l.
Definition created_roads (c : addr) (l : log) : list addr := omap (created_road c) l.

(** A logged call is [approve_plan()] on plan [a]; the key and value a logged
    [add_specification] put into plan [a]; the dict the writes of a log leave
    behind, replayed in order from the empty dict. *)
Definition approves (a : addr) (e : op * result) : bool :=
  match e.1 with
  | DesignPlan_approve_plan p => bool_decide (p = a)
  | _ => false
  end.

Definition spec_write (a : addr) (e : op * result) : option (string * string) :=
  match e.1 with
  | DesignPlan_add_specification p key value =>
      if decide (p = a) then Some (key, value) else None
  | _ => None
  end.

Definition replay (writes : list (string * string)) : list (string * string) :=
  fold_left (fun d kv => dict_set kv.1 kv.2 d) writes [].

(** Graph [w2] continues graph [w1]: every object of [w1] is still there with
    the fields it was constructed with, approval and design plans are not
    taken back, and line items and collections have only grown at the end. *)
Definition continues (w1 w2 : World) : Prop :=
  (forall a p, plan_heap w1 !! a = Some p ->
     exists p', plan_heap w2 !! a = Some p' /\
       DesignPlan.plan_id p' = DesignPlan.plan_id p /\
       DesignPlan.plan_type p' = DesignPlan.plan_type p /\
       DesignPlan.description p' = DesignPlan.description p /\
       DesignPlan.area_sqft p' = DesignPlan.area_sqft p /\
       DesignPlan.estimated_cost p' = DesignPlan.estimated_cost p /\
       DesignPlan.created_date p' = DesignPlan.created_date p /\
       (DesignPlan.approved p = true -> DesignPlan.approved p' = true)) /\
  (forall h s, housing_heap w1 !! h = Some s ->
     exists s', housing_heap w2 !! h = Some s' /\
       HousingProject.project_id s' = HousingProject.project_id s /\
       HousingProject.project_name s' = HousingProject.project_name s /\
       HousingProject.housing_type s' = HousingProject.housing_type s /\
       HousingProject.num_units s' = HousingProject.num_units s /\
       HousingProject.materials s `prefix_of` HousingProject.materials s' /\
       (HousingProject.design_plan s <> None -> HousingProject.design_plan s' <> None)) /\
  (forall r s, road_heap w1 !! r = Some s ->
     exists s', road_heap w2 !! r = Some s' /\
       RoadProject.project_id s' = RoadProject.project_id s /\
       RoadProject.road_name s' = RoadProject.road_name s /\
       RoadProject.road_type s' = RoadProject.road_type s /\
       RoadProject.length_km s' = RoadProject.length_km s /\
       RoadProject.equipment s `prefix_of` RoadProject.equipment s' /\
       (RoadProject.design_plan s <> None -> RoadProject.design_plan s' <> None)) /\
  (forall c s, company_heap w1 !! c = Some s ->
     exists s', company_heap w2 !! c = Some s' /\
       ConstructionCompany.company_name s' = ConstructionCompany.company_name s /\
       ConstructionCompany.design_plans s `prefix_of` ConstructionCompany.design_plans s' /\
       ConstructionCompany.housing_projects s
         `prefix_of` ConstructionCompany.housing_projects s' /\
       ConstructionCompany.road_projects s
         `prefix_of` ConstructionCompany.road_projects s').






(** How status, dates, worker count and design plan of a project hang
    together. *)
Definition housing_lifecycle (self : HousingProject.t) : Prop :=
  (HousingProject.status self = "planned" \/ HousingProject.status self = "in_progress" \/
   HousingProject.status self = "completed") /\
  (HousingProject.status self = "planned" ->
     HousingProject.start_date self = None /\ HousingProject.completion_date self = None) /\
  (HousingProject.start_date self = None ->
     HousingProject.workers_assigned self = 0 /\
     HousingProject.status self <> "in_progress") /\
  (HousingProject.start_date self <> None -> HousingProject.design_plan self <> None) /\
  (HousingProject.status self = "completed" -> HousingProject.completion_date self <> None).

Definition road_lifecycle (self : RoadProject.t) : Prop :=
  (RoadProject.status self = "planned" \/ RoadProject.status self = "in_progress" \/
   RoadProject.status self = "completed" \/ RoadProject.status self = "maintenance") /\
  (RoadProject.status self = "planned" ->
     RoadProject.start_date self = None /\ RoadProject.completion_date self = None) /\
  (RoadProject.start_date self = None ->
     RoadProject.workers_assigned self = 0 /\ RoadProject.status self <> "in_progress") /\
  (RoadProject.start_date self <> None -> RoadProject.design_plan self <> None) /\
  (RoadProject.status self = "completed" \/ RoadProject.status self = "maintenance" ->
     RoadProject.completion_date self <> None).

(** The one object a call may write to: the receiver of a mutating method. *)
Inductive kind := KPlan | KHousing | KRoad | KCompany.

Definition written (o : op) : option (kind * addr) :=
  match o with
  | DesignPlan_add_specification p _ _ | DesignPlan_approve_plan p => Some (KPlan, p)
  | Housing_assign_design_plan h _ | Housing_start_construction h _
  | Housing_add_materials h _ _ _ | Housing_complete_project h => Some (KHousing, h)
  | Road_assign_design_plan r _ | Road_set_road_specs r _ _
  | Road_start_construction r _ | Road_add_equipment r _ _
  | Road_schedule_maintenance r | Road_complete_project r => Some (KRoad, r)
  | Company_create_design_plan c _ _ _ _ _ | Company_create_housing_project c _ _ _ _
  | Company_create_road_project c _ _ _ _ => Some (KCompany, c)
  | _ => None
  end.

(** The calls that only read. *)
Definition is_query (o : op) : bool :=
  match o with
  | DesignPlan_get_details _ | Housing_get_project_info _ | Road_get_project_info _
  | Company_get_all_projects _ | Company_list_housing_projects _
  | Company_list_road_projects _ | Company_list_design_plans _
  | Company_generate_report _ => true
  | _ => false
  end.


(** The report, piece by piece: the text before the housing lines, one line
    per project, the text between, the text after. *)
Definition report_head (company_name : string) (housing road plans active : Z) : string :=
  ConstructionCompany.newline +:+ ConstructionCompany.banner +:+ ConstructionCompany.newline
  +:+ str_upper company_name +:+ " - CONSTRUCTION COMPANY REPORT"
  +:+ ConstructionCompany.newline
  +:+ ConstructionCompany.banner +:+ ConstructionCompany.newline
  +:+ ConstructionCompany.newline
  +:+ "SUMMARY:" +:+ ConstructionCompany.newline +:+ "--------"
  +:+ ConstructionCompany.newline
  +:+ "Total Housing Projects: " +:+ str_int housing +:+ ConstructionCompany.newline
  +:+ "Total Road Projects: " +:+ str_int road +:+ ConstructionCompany.newline
  +:+ "Total Design Plans: " +:+ str_int plans +:+ ConstructionCompany.newline
  +:+ "Active Projects: " +:+ str_int active +:+ ConstructionCompany.newline
  +:+ ConstructionCompany.newline
  +:+ "HOUSING PROJECTS:" +:+ ConstructionCompany.newline +:+ "----------------"
  +:+ ConstructionCompany.newline.

Definition housing_entry (p : HousingProject.t) : string :=
  "  - " +:+ HousingProject.project_name p +:+ " (" +:+ HousingProject.housing_type p
  +:+ "): " +:+ HousingProject.status p +:+ ConstructionCompany.newline.

Definition road_entry (p : RoadProject.t) : string :=
  "  - " +:+ RoadProject.road_name p +:+ " (" +:+ RoadProject.road_type p +:+ ", "
  +:+ float_str (RoadProject.length_km p) +:+ "km): " +:+ RoadProject.status p
  +:+ ConstructionCompany.newline.

(** Lines put one after the other. *)
Definition lines (l : list string) : string := fold_right String.append "" l.

Definition report_middle : string :=
  ConstructionCompany.newline +:+ "ROAD PROJECTS:" +:+ ConstructionCompany.newline
  +:+ "-------------" +:+ ConstructionCompany.newline.

Definition report_foot (now : datetime) : string :=
  ConstructionCompany.newline +:+ ConstructionCompany.banner +:+ ConstructionCompany.newline
  +:+ "Generated on: " +:+ strftime_datetime now +:+ ConstructionCompany.newline
  +:+ ConstructionCompany.banner +:+ ConstructionCompany.newline.

(** *** The summary statistics of [examples/design_plans_example.py]

    [all_plans] is what [list_design_plans()] returned.  [p['approved']] is
    tested for truth and [plan['type']] is used as a dict key; a snapshot
    holds a bool and a str there, and other values are left out ([None]). *)
Definition snapshot_approved (p : pydict) : option bool :=
  match dict_get "approved" p with
  | Some (VBool b) => Some b
  | _ => None
  end.

Definition snapshot_type (p : pydict) : option string :=
  match dict_get "type" p with
  | Some (VStr s) => Some s
  | _ => None
  end.

(** [sum(1 for p in all_plans if p['approved'])] *)
Definition approved_plans (all_plans : list pydict) : option Z :=
  flags ← mapM snapshot_approved all_plans;
  Some (py_sum (map (fun _ => 1) (List.filter (fun b : bool => b) flags))).

(** [len(all_plans) - approved_plans] *)
Definition pending_plans (all_plans : list pydict) : option Z :=
  approved ← approved_plans all_plans;
  Some (len all_plans - approved).

(** [plan_types.get(ptype, 0)] *)
Definition dict_get_default {V} (k : string) (dflt : V) (d : list (string * V)) : V :=
  match dict_get k d with Some v => v | None => dflt end.

(** The loop body [plan_types[ptype] = plan_types.get(ptype, 0) + 1]. *)
Definition count_type (counts : option (list (string * Z))) (plan : pydict)
    : option (list (string * Z)) :=
  plan_types ← counts;
  ptype ← snapshot_type plan;
  Some (dict_set ptype (dict_get_default ptype 0 plan_types + 1) plan_types).

(** [plan_types = {}] and the loop over [all_plans]. *)
Definition plan_types (all_plans : list pydict) : option (list (string * Z)) :=
  fold_left count_type all_plans (Some []).

(** How many plans have a given type, and the sum of a breakdown's counts. *)
Definition count_type_of (t : string) (plans : list DesignPlan.t) : nat :=
  length (List.filter (fun p => String.eqb (DesignPlan.plan_type p) t) plans).

Fixpoint sum_values (d : list (string * Z)) : Z :=
  match d with
  | [] => 0
  | (_, v) :: d' => v + sum_values d'
  end.

End Machine.

(** ** A sample runtime

    Enough of the interpreter to run the model: timestamps to the second,
    floats with whole-number values (printed the way Python prints them, with
    a trailing [.0]), and upper-casing of ASCII letters. *)
Module Sample.

Record stamp := mk_stamp {
  year : nat; month : nat; day : nat; hour : nat; minute : nat; second : nat
}.

Definition digits (n : nat) : string := str_int (Z.of_nat n).

Definition two_digits (n : nat) : string :=
  if (n <? 10)%nat then "0" +:+ digits n else digits n.

Definition date_of (s : stamp) : string :=
  digits (year s) +:+ "-" +:+ two_digits (month s) +:+ "-" +:+ two_digits (day s).

Definition time_of (s : stamp) : string :=
  two_digits (hour s) +:+ ":" +:+ two_digits (minute s) +:+ ":" +:+ two_digits (second s).

Definition upper_ascii (c : ascii) : ascii :=
  let n := nat_of_ascii c in
  if ((97 <=? n) && (n <=? 122))%nat then ascii_of_nat (n - 32) else c.

Fixpoint upper (s : string) : string :=
  match s with
  | EmptyString => EmptyString
  | String c s' => String (upper_ascii c) (upper s')
  end.

Definition runtime : PyRuntime :=
  {| pyfloat := Z;
     float_str := fun x => str_int x +:+ ".0";
     datetime := stamp;
     strftime_date := date_of;
     strftime_datetime := fun s => date_of s +:+ " " +:+ time_of s;
     str_upper := upper |}.

#[local] Existing Instance runtime.

Definition noon : datetime := mk_stamp 2024 3 15 12 0 0.

Definition whole (z : Z) : pyfloat := z.

(** The session of [main()], up to the report. *)
Definition main_session : list event :=
  [ (noon, Company_new "Premier Construction Ltd.");
    (noon, Company_create_design_plan 0 "DP001" "housing"
             "Residential Complex Blueprint" (whole 5000) (whole 250000));
    (noon, DesignPlan_add_specification 0 "bedrooms" "3");
    (noon, DesignPlan_add_specification 0 "bathrooms" "2");
    (noon, DesignPlan_add_specification 0 "floors" "2");
    (noon, DesignPlan_approve_plan 0);
    (noon, Company_create_design_plan 0 "DP002" "road" "Main Highway Design"
             (whole 100000) (whole 1500000));
    (noon, DesignPlan_add_specification 1 "lanes" "4");
    (noon, DesignPlan_add_specification 1 "surface" "asphalt");
    (noon, DesignPlan_approve_plan 1);
    (noon, Company_create_housing_project 0 "HP001" "Greenview Apartments"
             "apartment" 24);
    (noon, Housing_assign_design_plan 0 0);
    (noon, Housing_add_materials 0 "cement" (whole 500) "bags");
    (noon, Housing_add_materials 0 "steel" (whole 10) "tons");
    (noon, Housing_add_materials 0 "bricks" (whole 50000) "pieces");
    (noon, Housing_start_construction 0 25);
    (noon, Company_create_road_project 0 "RD001" "Central Highway" "highway" (whole 15));
    (noon, Road_assign_design_plan 0 1);
    (noon, Road_set_road_specs 0 4 "asphalt");
    (noon, Road_add_equipment 0 "excavator" 2);
    (noon, Road_add_equipment 0 "roller" 3);
    (noon, Road_add_equipment 0 "paver" 1);
    (noon, Road_start_construction 0 40);
    (noon, Company_generate_report 0) ].

(** The log and the graph [main()] ends with. *)
Definition main_log : log :=
  Eval vm_compute in match run main_session with Some (l, _) => l | None => [] end.

Definition main_world : World :=
  Eval vm_compute in
    match run main_session with Some (_, w) => w | None => empty_world end.

(** The same after the first six calls, when the housing plan has just been
    approved. *)
Definition early_session : list event := firstn 6 main_session.
Definition late_session : list event := skipn 6 main_session.

Definition early_log : log :=
  Eval vm_compute in match run early_session with Some (l, _) => l | None => [] end.

Definition early_world : World :=
  Eval vm_compute in
    match run early_session with Some (_, w) => w | None => empty_world end.

(** The company, the housing plan and the projects of [main()] as they are
    in the final graph, and the housing plan as it is after six calls. *)
Definition premier : ConstructionCompany.t :=
  Eval vm_compute in
    default (ConstructionCompany.__init__ "") (company_heap main_world !! 0%nat).

Definition housing_plan : DesignPlan.t :=
  Eval vm_compute in
    default (DesignPlan.__init__ noon "" "" "" (whole 0) (whole 0))
            (plan_heap main_world !! 0%nat).

Definition early_housing_plan : DesignPlan.t :=
  Eval vm_compute in
    default (DesignPlan.__init__ noon "" "" "" (whole 0) (whole 0))
            (plan_heap early_world !! 0%nat).

Definition housing1 : HousingProject.t :=
  Eval vm_compute in
    default (HousingProject.__init__ "" "" "" 0) (housing_heap main_world !! 0%nat).

Definition road1 : RoadProject.t :=
  Eval vm_compute in
    default (RoadProject.__init__ "" "" "" (whole 0)) (road_heap main_world !! 0%nat).

(** One call more: the housing project of [main()] is completed. *)
Definition after_completion : result * World :=
  Eval vm_compute in
    default (RNone, empty_world) (call noon (Housing_complete_project 0) main_world).

End Sample.

(** ** The methods, one call at a time *)
Section Methods.
Context `{RT : PyRuntime}.

(** C3. [schedule_maintenance()] on a road project succeeds exactly when the
    status is the string [completed]: then the status becomes [maintenance],
    nothing else changes and the confirmation is returned; in every other
    status the error string is returned and the project is unchanged. *)
Theorem schedule_maintenance_iff_completed (self : RoadProject.t) :
  let '(msg, self') := RoadProject.schedule_maintenance self in
  (is_error msg = false <-> RoadProject.status self = "completed") /\
  (RoadProject.status self = "completed" ->
     msg = "Maintenance scheduled for " +:+ RoadProject.road_name self /\
     RoadProject.status self' = "maintenance" /\
     self' = RoadProject.set_status "maintenance" self) /\
  (RoadProject.status self <> "completed" ->
     msg = "Error: Road must be completed before scheduling maintenance" /\
     is_error msg = true /\
     self' = self /\ RoadProject.status self' = RoadProject.status self).
Proof.
  unfold RoadProject.schedule_maintenance.
  destruct (String.eqb_spec (RoadProject.status self) "completed") as [E|E].
  - repeat split; auto; intros; congruence.
  - repeat split; auto; intros; try congruence; discriminate.
Qed.

(** C7. [complete_project()] has no guard: from any status, of a housing
    project or of a road project, it sets the status to [completed], records
    the clock reading as the completion date, changes no other field and
    returns the confirmation. *)
Theorem complete_project_unconditional (now : datetime) :
  (forall self : HousingProject.t,
     let '(msg, self') := HousingProject.complete_project now self in
     HousingProject.status self' = "completed" /\
     HousingProject.completion_date self' = Some now /\
     self' = HousingProject.set_completion_date (Some now)
               (HousingProject.set_status "completed" self) /\
     msg = "Housing project " +:+ HousingProject.project_name self
             +:+ " completed on " +:+ strftime_date now /\
     is_error msg = false) /\
  (forall self : RoadProject.t,
     let '(msg, self') := RoadProject.complete_project now self in
     RoadProject.status self' = "completed" /\
     RoadProject.completion_date self' = Some now /\
     self' = RoadProject.set_completion_date (Some now)
               (RoadProject.set_status "completed" self) /\
     msg = "Road project " +:+ RoadProject.road_name self
             +:+ " completed on " +:+ strftime_date now /\
     is_error msg = false).
Proof.
  split; intros self; cbn; repeat split; reflexivity.
Qed.

(** C1. [assign_design_plan(p)], on a housing project and on a road project,
    succeeds exactly when [p.approved] is true and [p.plan_type] is the
    project's own category ([housing], [road]).  On success the reference [p]
    is stored and the confirmation is returned; otherwise an error string is
    returned (approval is checked first) and the project, its design plan
    reference included, is unchanged. *)
Theorem assign_design_plan_iff (plans : list DesignPlan.t) (p : addr) (plan : DesignPlan.t) :
  plans !! p = Some plan ->
  (forall self : HousingProject.t, exists msg self',
     HousingProject.assign_design_plan plans self p = Some (msg, self') /\
     (is_error msg = false <->
        DesignPlan.approved plan = true /\ DesignPlan.plan_type plan = "housing") /\
     (is_error msg = false ->
        msg = "Design plan " +:+ DesignPlan.plan_id plan +:+ " assigned to "
                +:+ HousingProject.project_name self /\
        HousingProject.design_plan self' = Some p /\
        self' = HousingProject.set_design_plan (Some p) self) /\
     (is_error msg = true ->
        self' = self /\
        HousingProject.design_plan self' = HousingProject.design_plan self) /\
     (DesignPlan.approved plan = false ->
        msg = "Error: Design plan must be approved first")) /\
  (forall self : RoadProject.t, exists msg self',
     RoadProject.assign_design_plan plans self p = Some (msg, self') /\
     (is_error msg = false <->
        DesignPlan.approved plan = true /\ DesignPlan.plan_type plan = "road") /\
     (is_error msg = false ->
        msg = "Design plan " +:+ DesignPlan.plan_id plan +:+ " assigned to "
                +:+ RoadProject.road_name self /\
        RoadProject.design_plan self' = Some p /\
        self' = RoadProject.set_design_plan (Some p) self) /\
     (is_error msg = true ->
        self' = self /\
        RoadProject.design_plan self' = RoadProject.design_plan self) /\
     (DesignPlan.approved plan = false ->
        msg = "Error: Design plan must be approved first")).
Proof.
  intros Hp. split; intros self.
  - unfold HousingProject.assign_design_plan. rewrite Hp. cbn.
    destruct (DesignPlan.approved plan) eqn:Ha; cbn.
    + destruct (String.eqb_spec (DesignPlan.plan_type plan) "housing") as [E|E]; cbn.
      * eexists _, _. split; [reflexivity|]. cbn.
        repeat split; auto; discriminate.
      * eexists _, _. split; [reflexivity|]. cbn.
        repeat split; auto; try discriminate; intros; tauto.
    + eexists _, _. split; [reflexivity|]. cbn.
      repeat split; auto; try discriminate. intros [? _]. discriminate.
  - unfold RoadProject.assign_design_plan. rewrite Hp. cbn.
    destruct (DesignPlan.approved plan) eqn:Ha; cbn.
    + destruct (String.eqb_spec (DesignPlan.plan_type plan) "road") as [E|E]; cbn.
      * eexists _, _. split; [reflexivity|]. cbn.
        repeat split; auto; discriminate.
      * eexists _, _. split; [reflexivity|]. cbn.
        repeat split; auto; try discriminate; intros; tauto.
    + eexists _, _. split; [reflexivity|]. cbn.
      repeat split; auto; try discriminate. intros [? _]. discriminate.
Qed.


End Methods.

(** ** Sessions: what holds in every reachable object graph *)
Section Sessions.
Context `{RT : PyRuntime}.

Lemma run_snoc (es : list event) (e : event) : run (es ++ [e]) = exec (run es) e.
Proof. unfold run. by rewrite fold_left_app. Qed.

Lemma run_ind (P : log -> World -> Prop) :
  P [] empty_world ->
  (forall now o l w r w', P l w -> call now o w = Some (r, w') -> P (l ++ [(o, r)]) w') ->
  forall es l w, run es = Some (l, w) -> P l w.
Proof.
  intros H0 Hstep es.
  induction es as [|[now o] es IH] using rev_ind; intros l w Hrun.
  - cbv in Hrun. by simplify_eq.
  - rewrite run_snoc in Hrun. unfold exec in Hrun.
    destruct (run es) as [[l0 w0]|] eqn:Hes; simplify_option_eq.
    destruct (call now o w0) as [[r w1]|] eqn:Hc; simplify_option_eq.
    eapply Hstep; [ by eapply IH | done ].
Qed.

Lemma reachable_ind (P : World -> Prop) :
  P empty_world ->
  (forall now o w r w', P w -> call now o w = Some (r, w') -> P w') ->
  forall w, reachable w -> P w.
Proof.
  intros H0 Hstep w (es & l & Hrun).
  apply (run_ind (fun _ => P)) with (es := es) (l := l); eauto.
Qed.

Lemma heap_insert_lookup {A} (l : list A) (i a : nat) (x y : A) :
  l !! i = Some x ->
  <[i := y]> l !! a = if decide (i = a) then Some y else l !! a.
Proof.
  intros Hi. destruct (decide (i = a)) as [->|Hne].
  - apply list_lookup_insert_eq. by eapply lookup_lt_Some.
  - by apply list_lookup_insert_ne.
Qed.

Lemma heap_snoc_lookup {A} (l : list A) (a : nat) (y : A) :
  (l ++ [y]) !! a = if decide (a = length l) then Some y else l !! a.
Proof.
  destruct (decide (a = length l)) as [->|Hne].
  - by rewrite list_lookup_middle.
  - destruct (decide (a < length l)%nat).
    + by rewrite lookup_app_l.
    + rewrite !lookup_ge_None_2; [done | lia |]. rewrite length_app. simpl. lia.
Qed.

Lemma heap_old_not_fresh {A} (l : list A) (a : nat) (x : A) :
  l !! a = Some x -> a <> length l.
Proof. intros H%lookup_lt_Some. lia. Qed.

Ltac call_inv H :=
  match type of H with
  | call _ ?o _ = Some _ => destruct o; cbn in H; simplify_option_eq
  end;
  repeat match goal with
         | H' : context [match ?x with (_, _) => _ end] |- _ => destruct x eqn:?
         end;
  simplify_option_eq.

Ltac same_cell :=
  repeat match goal with
         | H1 : ?l !! ?a = Some ?x, H2 : ?l !! ?a = Some ?y |- _ =>
             assert (y = x) as -> by congruence; clear H2
         end.

Ltac heap_simpl :=
  repeat first
    [ erewrite heap_insert_lookup by eassumption
    | rewrite heap_snoc_lookup
    | case_decide; simplify_eq ];
  same_cell.

Lemma call_plan_heap now o w r w' a p :
  call now o w = Some (r, w') ->
  plan_heap w !! a = Some p ->
  exists p', plan_heap w' !! a = Some p' /\
    DesignPlan.plan_type p' = DesignPlan.plan_type p /\
    DesignPlan.plan_id p' = DesignPlan.plan_id p /\
    (DesignPlan.approved p = true -> DesignPlan.approved p' = true).
Proof.
  intros H Ha. pose proof (heap_old_not_fresh _ _ _ Ha).
  call_inv H; cbn; heap_simpl; eauto;
    eexists; (split; [reflexivity | cbn; auto]).
Qed.

Lemma housing_assign_inv plans self p msg self' :
  HousingProject.assign_design_plan plans self p = Some (msg, self') ->
  (is_error msg = true /\ self' = self) \/
  (exists plan, plans !! p = Some plan /\ DesignPlan.approved plan = true /\
     DesignPlan.plan_type plan = "housing" /\ is_error msg = false /\
     self' = HousingProject.set_design_plan (Some p) self).
Proof.
  unfold HousingProject.assign_design_plan. intros H.
  destruct (plans !! p) as [plan|] eqn:Hp; [cbn in H | done].
  destruct (DesignPlan.approved plan) eqn:Ha; cbn in H; [| left; by simplify_eq].
  destruct (String.eqb_spec (DesignPlan.plan_type plan) "housing");
    cbn in H; simplify_eq; [right | left]; eauto 10.
Qed.

Lemma road_assign_inv plans self p msg self' :
  RoadProject.assign_design_plan plans self p = Some (msg, self') ->
  (is_error msg = true /\ self' = self) \/
  (exists plan, plans !! p = Some plan /\ DesignPlan.approved plan = true /\
     DesignPlan.plan_type plan = "road" /\ is_error msg = false /\
     self' = RoadProject.set_design_plan (Some p) self).
Proof.
  unfold RoadProject.assign_design_plan. intros H.
  destruct (plans !! p) as [plan|] eqn:Hp; [cbn in H | done].
  destruct (DesignPlan.approved plan) eqn:Ha; cbn in H; [| left; by simplify_eq].
  destruct (String.eqb_spec (DesignPlan.plan_type plan) "road");
    cbn in H; simplify_eq; [right | left]; eauto 10.
Qed.

Lemma housing_start_inv plans now self n msg self' :
  HousingProject.start_construction plans now self n = Some (msg, self') ->
  (is_error msg = true /\ self' = self) \/
  (is_error msg = false /\
   self' = HousingProject.set_workers_assigned n
             (HousingProject.set_start_date (Some now)
                (HousingProject.set_status "in_progress" self))).
Proof.
  unfold HousingProject.start_construction. intros H.
  destruct (HousingProject.design_plan self) as [p|]; [| left; by simplify_eq].
  destruct (plans !! p) as [plan|]; [cbn in H | done].
  destruct (DesignPlan.approved plan); simplify_eq; [right | left]; done.
Qed.

Lemma road_start_inv plans now self n msg self' :
  RoadProject.start_construction plans now self n = Some (msg, self') ->
  (is_error msg = true /\ self' = self) \/
  (is_error msg = false /\
   self' = RoadProject.set_workers_assigned n
             (RoadProject.set_start_date (Some now)
                (RoadProject.set_status "in_progress" self))).
Proof.
  unfold RoadProject.start_construction. intros H.
  destruct (RoadProject.design_plan self) as [p|]; [| left; by simplify_eq].
  destruct (plans !! p) as [plan|]; [cbn in H | done].
  destruct (DesignPlan.approved plan); simplify_eq; [right | left]; done.
Qed.

Lemma road_maintenance_inv self msg self' :
  RoadProject.schedule_maintenance self = (msg, self') ->
  (is_error msg = true /\ RoadProject.status self <> "completed" /\ self' = self) \/
  (is_error msg = false /\ RoadProject.status self = "completed" /\
   self' = RoadProject.set_status "maintenance" self).
Proof.
  unfold RoadProject.schedule_maintenance. intros H.
  destruct (String.eqb_spec (RoadProject.status self) "completed");
    simplify_eq; [right | left]; done.
Qed.

Ltac method_inv :=
  repeat match goal with
         | H : RoadProject.schedule_maintenance _ = _ |- _ =>
             apply road_maintenance_inv in H as [(? & ? & ->)|(? & ? & ->)]
         | H : HousingProject.assign_design_plan _ _ _ = Some _ |- _ =>
             apply housing_assign_inv in H as [[? ->]|(? & ? & ? & ? & ? & ->)]
         | H : RoadProject.assign_design_plan _ _ _ = Some _ |- _ =>
             apply road_assign_inv in H as [[? ->]|(? & ? & ? & ? & ? & ->)]
         | H : HousingProject.start_construction _ _ _ _ = Some _ |- _ =>
             apply housing_start_inv in H as [[? ->]|[? ->]]
         | H : RoadProject.start_construction _ _ _ _ = Some _ |- _ =>
             apply road_start_inv in H as [[? ->]|[? ->]]
         end.

Lemma call_housing_heap now o w r w' h self' :
  call now o w = Some (r, w') ->
  housing_heap w' !! h = Some self' ->
  HousingProject.design_plan self' = None \/
  (exists self, housing_heap w !! h = Some self /\
     HousingProject.design_plan self' = HousingProject.design_plan self) \/
  (exists p plan, HousingProject.design_plan self' = Some p /\
     plan_heap w !! p = Some plan /\ DesignPlan.approved plan = true /\
     DesignPlan.plan_type plan = "housing").
Proof.
  intros H Hh. call_inv H; method_inv; cbn in Hh; eauto.
  all: revert Hh; heap_simpl; intros Hh; simplify_eq; cbn; eauto 10.
Qed.

Lemma call_road_heap now o w r w' a self' :
  call now o w = Some (r, w') ->
  road_heap w' !! a = Some self' ->
  RoadProject.design_plan self' = None \/
  (exists self, road_heap w !! a = Some self /\
     RoadProject.design_plan self' = RoadProject.design_plan self) \/
  (exists p plan, RoadProject.design_plan self' = Some p /\
     plan_heap w !! p = Some plan /\ DesignPlan.approved plan = true /\
     DesignPlan.plan_type plan = "road").
Proof.
  intros H Hh. call_inv H; method_inv; cbn in Hh; eauto.
  all: revert Hh; heap_simpl; intros Hh; simplify_eq; cbn; eauto 10.
Qed.

Lemma design_plan_invariant_step now o w r w' :
  design_plan_invariant w -> call now o w = Some (r, w') -> design_plan_invariant w'.
Proof.
  intros [Hh Hr] Hc. split.
  - intros h self' Hs p Hp.
    destruct (call_housing_heap _ _ _ _ _ _ _ Hc Hs)
      as [Hn|[(self & Hself & Heq)|(p' & plan & Hp' & Hplan & Ha & Ht)]].
    + congruence.
    + rewrite Heq in Hp. destruct (Hh _ _ Hself _ Hp) as (plan & Hplan & Ha & Ht).
      destruct (call_plan_heap _ _ _ _ _ _ _ Hc Hplan) as (plan' & ? & ? & ? & ?).
      exists plan'. repeat split; auto; congruence.
    + assert (p' = p) as -> by congruence.
      destruct (call_plan_heap _ _ _ _ _ _ _ Hc Hplan) as (plan' & ? & ? & ? & ?).
      exists plan'. repeat split; auto; congruence.
  - intros a self' Hs p Hp.
    destruct (call_road_heap _ _ _ _ _ _ _ Hc Hs)
      as [Hn|[(self & Hself & Heq)|(p' & plan & Hp' & Hplan & Ha & Ht)]].
    + congruence.
    + rewrite Heq in Hp. destruct (Hr _ _ Hself _ Hp) as (plan & Hplan & Ha & Ht).
      destruct (call_plan_heap _ _ _ _ _ _ _ Hc Hplan) as (plan' & ? & ? & ? & ?).
      exists plan'. repeat split; auto; congruence.
    + assert (p' = p) as -> by congruence.
      destruct (call_plan_heap _ _ _ _ _ _ _ Hc Hplan) as (plan' & ? & ? & ? & ?).
      exists plan'. repeat split; auto; congruence.
Qed.


Lemma call_heap_lengths now o w r w' :
  call now o w = Some (r, w') ->
  (length (plan_heap w) <= length (plan_heap w'))%nat /\
  (length (housing_heap w) <= length (housing_heap w'))%nat /\
  (length (road_heap w) <= length (road_heap w'))%nat /\
  (length (company_heap w) <= length (company_heap w'))%nat.
Proof.
  intros H. call_inv H; cbn; rewrite ?length_insert, ?length_app; cbn; lia.
Qed.

Lemma call_created_plan now o w r w' c a :
  call now o w = Some (r, w') ->
  created_plan c (o, r) = Some a ->
  is_Some (company_heap w !! c) /\ a = length (plan_heap w) /\
  (a < length (plan_heap w'))%nat.
Proof.
  intros H Hc. call_inv H. cbn. rewrite length_app. cbn. split; [eauto | lia].
Qed.

Lemma call_company_heap now o w r w' c self' :
  call now o w = Some (r, w') ->
  company_heap w' !! c = Some self' ->
  (company_heap w !! c = None /\ exists name, self' = ConstructionCompany.__init__ name) \/
  (exists self, company_heap w !! c = Some self /\
     ConstructionCompany.company_name self' = ConstructionCompany.company_name self /\
     ConstructionCompany.total_workers self' = ConstructionCompany.total_workers self /\
     ConstructionCompany.active_projects self' = ConstructionCompany.active_projects self /\
     ConstructionCompany.design_plans self'
       = ConstructionCompany.design_plans self ++ option_list (created_plan c (o, r)) /\
     (ConstructionCompany.housing_projects self' = ConstructionCompany.housing_projects self \/
      ConstructionCompany.housing_projects self'
        = ConstructionCompany.housing_projects self ++ [length (housing_heap w)] /\
      (length (housing_heap w) < length (housing_heap w'))%nat) /\
     (ConstructionCompany.road_projects self' = ConstructionCompany.road_projects self \/
      ConstructionCompany.road_projects self'
        = ConstructionCompany.road_projects self ++ [length (road_heap w)] /\
      (length (road_heap w) < length (road_heap w'))%nat)).
Proof.
  intros H Hc. call_inv H; cbn in Hc.
  all: try (right; eexists; split; [eassumption|]; cbn; rewrite ?app_nil_r; by auto 10).
  all: revert Hc; heap_simpl; intros Hc; simplify_eq; cbn.
  all: try (left; split; [by apply lookup_ge_None_2 | by eauto]).
  all: right; eexists; (split; [eassumption|]); cbn; rewrite ?app_nil_r, ?length_app; cbn.
  all: repeat split; auto; try (right; split; [done | lia]).
  all: try (case_decide; [done | by rewrite app_nil_r]).
Qed.


Lemma refs_valid_mono {A} (heap heap' : list A) refs :
  (length heap <= length heap')%nat -> refs_valid heap refs -> refs_valid heap' refs.
Proof.
  intros Hle Hv. eapply Forall_impl; [exact Hv|]. cbn. intros a Ha. lia.
Qed.

Lemma refs_valid_snoc {A} (heap : list A) refs a :
  refs_valid heap refs -> (a < length heap)%nat -> refs_valid heap (refs ++ [a]).
Proof. intros H Ha. apply Forall_app. split; [done | by constructor]. Qed.

Lemma well_formed_step now o w r w' :
  well_formed w -> call now o w = Some (r, w') -> well_formed w'.
Proof.
  intros Hwf Hc c self' Hs.
  destruct (call_heap_lengths _ _ _ _ _ Hc) as (Lp & Lh & Lr & _).
  destruct (call_company_heap _ _ _ _ _ _ _ Hc Hs)
    as [[_ [name ->]]|(self & Hself & _ & _ & _ & Hd & Hh & Hr)].
  { repeat split; constructor. }
  destruct (Hwf _ _ Hself) as (Vp & Vh & Vr).
  repeat split.
  - rewrite Hd. destruct (created_plan c (o, r)) as [a|] eqn:Hcp; cbn.
    + destruct (call_created_plan _ _ _ _ _ _ _ Hc Hcp) as (_ & _ & Ha).
      apply refs_valid_snoc; [by eapply refs_valid_mono | done].
    + rewrite app_nil_r. by eapply refs_valid_mono.
  - destruct Hh as [->|[-> Hlt]].
    + by eapply refs_valid_mono.
    + apply refs_valid_snoc; [by eapply refs_valid_mono | done].
  - destruct Hr as [->|[-> Hlt]].
    + by eapply refs_valid_mono.
    + apply refs_valid_snoc; [by eapply refs_valid_mono | done].
Qed.

Lemma reachable_well_formed w : reachable w -> well_formed w.
Proof.
  apply reachable_ind.
  - intros c self Hs. cbn in Hs. by rewrite lookup_nil in Hs.
  - intros. by eapply well_formed_step.
Qed.

Lemma deref_all_valid {A} (heap : list A) refs :
  refs_valid heap refs ->
  exists xs, ConstructionCompany.deref_all heap refs = Some xs /\
             Forall2 (fun a x => heap !! a = Some x) refs xs.
Proof.
  intros Hv. unfold ConstructionCompany.deref_all.
  destruct (mapM_is_Some_2 (fun a => heap !! a) refs) as [xs Hxs].
  - eapply Forall_impl; [exact Hv|]. intros a Ha. by apply lookup_lt_is_Some_2.
  - exists xs. split; [done|]. by apply mapM_Some_1.
Qed.

Lemma py_sum_ones {A} (l : list A) : py_sum (map (fun _ => 1) l) = Z.of_nat (length l).
Proof.
  unfold py_sum.
  assert (forall acc, fold_left Z.add (map (fun _ : A => 1) l) acc
                      = acc + Z.of_nat (length l)) as H.
  { induction l as [|x l IH]; intros acc; cbn [map fold_left length].
    - lia.
    - rewrite IH. lia. }
  by rewrite H.
Qed.

Lemma filter_deref {A} (heap : list A) (f : A -> bool) refs xs :
  Forall2 (fun a x => heap !! a = Some x) refs xs ->
  length (List.filter f xs)
  = length (List.filter (fun a => match heap !! a with Some x => f x | None => false end)
              refs).
Proof.
  induction 1 as [|a x refs xs Ha _ IH]; [done|].
  cbn. rewrite Ha. destruct (f x); cbn; by rewrite IH.
Qed.





Lemma append_head (c : ascii) (s t : string) : String c s +:+ t = String c (s +:+ t).
Proof. reflexivity. Qed.





(** C6. In every graph reachable by a session of constructor and method
    calls, [get_all_projects()] of a company returns the lengths of its three
    collections as the totals, the number of its housing projects and of its
    road projects whose status is [in_progress] as the active counts, and
    their sum as [total_active_projects]; the graph is not changed. *)
Theorem get_all_projects_counts now w c self :
  reachable w ->
  company_heap w !! c = Some self ->
  call now (Company_get_all_projects c) w =
    Some (RDict
            [ ("company_name", VStr (ConstructionCompany.company_name self));
              ("total_housing_projects",
                 VInt (Z.of_nat (length (ConstructionCompany.housing_projects self))));
              ("total_road_projects",
                 VInt (Z.of_nat (length (ConstructionCompany.road_projects self))));
              ("total_design_plans",
                 VInt (Z.of_nat (length (ConstructionCompany.design_plans self))));
              ("active_housing_projects", VInt (Z.of_nat (active_housing w self)));
              ("active_road_projects", VInt (Z.of_nat (active_roads w self)));
              ("total_active_projects",
                 VInt (Z.of_nat (active_housing w self + active_roads w self))) ],
          w).
Proof.
  intros Hr Hs. destruct (reachable_well_formed _ Hr _ _ Hs) as (_ & Vh & Vr).
  destruct (deref_all_valid _ _ Vh) as (hs & Hhs & Fh).
  destruct (deref_all_valid _ _ Vr) as (rs & Hrs & Fr).
  cbn. rewrite Hs. cbn. unfold ConstructionCompany.get_all_projects.
  rewrite Hhs, Hrs. cbn. rewrite !py_sum_ones.
  rewrite (filter_deref _ _ _ _ Fh), (filter_deref _ _ _ _ Fr).
  unfold len, active_housing, active_roads, housing_in_progress, road_in_progress.
  by rewrite Nat2Z.inj_add.
Qed.

(** C9. In every reachable graph each housing project and each road project
    either has no design plan or refers to a plan that is approved and of the
    project's category ([housing], [road]); and every call preserves this. *)
Theorem design_plan_invariant_reachable :
  (forall w, reachable w -> design_plan_invariant w) /\
  (forall now o w r w',
     design_plan_invariant w -> call now o w = Some (r, w') -> design_plan_invariant w').
Proof.
  split.
  - apply reachable_ind.
    + split; intros a self H; cbn in H; by rewrite lookup_nil in H.
    + intros. by eapply design_plan_invariant_step.
  - intros. by eapply design_plan_invariant_step.
Qed.






Lemma run_app (es1 es2 : list event) : run (es1 ++ es2) = fold_left exec es2 (run es1).
Proof. unfold run. by rewrite fold_left_app. Qed.

Lemma exec_None (es : list event) : fold_left exec es None = None.
Proof. induction es; cbn; auto. Qed.

Lemma approved_stays_continue (es : list event) st l w l' w' a p :
  st = Some (l, w) ->
  fold_left exec es st = Some (l', w') ->
  plan_heap w !! a = Some p -> DesignPlan.approved p = true ->
  exists p', plan_heap w' !! a = Some p' /\ DesignPlan.approved p' = true.
Proof.
  revert st l w p. induction es as [|[now o] es IH]; intros st l w p -> Hrun Hp Ha.
  - cbn in Hrun. simplify_eq. eauto.
  - cbn in Hrun. destruct (call now o w) as [[r w1]|] eqn:Hc; cbn in Hrun.
    + destruct (call_plan_heap _ _ _ _ _ _ _ Hc Hp) as (p1 & Hp1 & _ & _ & Ha1).
      exact (IH _ _ _ _ eq_refl Hrun Hp1 (Ha1 Ha)).
    + by rewrite exec_None in Hrun.
Qed.

(** C5. A design plan is constructed with [approved] false;
    [approve_plan()] makes it true; after one or more calls of
    [approve_plan()] it is true; and no call of any method of any class takes
    an approved plan back to unapproved, in one step or along the rest of a
    session. *)
Theorem approved_monotonic :
  (forall now plan_id plan_type description area_sqft estimated_cost,
     DesignPlan.approved (DesignPlan.__init__ now plan_id plan_type description
                            area_sqft estimated_cost) = false) /\
  (forall now self, DesignPlan.approved (DesignPlan.approve_plan now self).2 = true) /\
  (forall now nows self,
     DesignPlan.approved
       (fold_left (fun self now => (DesignPlan.approve_plan now self).2) (now :: nows) self)
     = true) /\
  (forall now o w r w' a p,
     call now o w = Some (r, w') ->
     plan_heap w !! a = Some p -> DesignPlan.approved p = true ->
     exists p', plan_heap w' !! a = Some p' /\ DesignPlan.approved p' = true) /\
  (forall es1 es2 l1 w1 l2 w2 a p,
     run es1 = Some (l1, w1) -> run (es1 ++ es2) = Some (l2, w2) ->
     plan_heap w1 !! a = Some p -> DesignPlan.approved p = true ->
     exists p', plan_heap w2 !! a = Some p' /\ DesignPlan.approved p' = true).
Proof.
  split; [|split; [|split; [|split]]].
  - reflexivity.
  - reflexivity.
  - intros now nows. revert now. induction nows as [|now' nows IH]; intros now self.
    + reflexivity.
    + change (fold_left ?f (now :: now' :: nows) self)
        with (fold_left f (now' :: nows) (DesignPlan.approve_plan now self).2).
      apply IH.
  - intros now o w r w' a p Hc Hp Ha.
    destruct (call_plan_heap _ _ _ _ _ _ _ Hc Hp) as (p' & ? & _ & _ & ?). eauto.
  - intros es1 es2 l1 w1 l2 w2 a p H1 H2 Hp Ha. rewrite run_app in H2.
    exact (approved_stays_continue es2 _ _ _ _ _ _ _ H1 H2 Hp Ha).
Qed.


Lemma created_plans_snoc c l e :
  created_plans c (l ++ [e]) = created_plans c l ++ option_list (created_plan c e).
Proof.
  unfold created_plans. rewrite omap_app. cbn. by destruct (created_plan c e).
Qed.

Lemma registry_log_invariant_run c es l w :
  run es = Some (l, w) -> registry_log_invariant c l w.
Proof.
  revert es l w. apply run_ind.
  - split; [|split]; cbn.
    + by apply Forall_nil_2.
    + by apply NoDup_nil_2.
    + by rewrite lookup_nil.
  - intros now o l w r w' (Hlt & Hnd & Hreg) Hc.
    destruct (call_heap_lengths _ _ _ _ _ Hc) as (Lp & _ & _ & Lc).
    unfold registry_log_invariant. rewrite created_plans_snoc.
    destruct (created_plan c (o, r)) as [a|] eqn:Hcp; cbn.
    + destruct (call_created_plan _ _ _ _ _ _ _ Hc Hcp) as ([self Hself] & -> & Ha).
      rewrite Hself in Hreg. repeat split.
      * apply Forall_app. split; [|by repeat constructor].
        eapply Forall_impl; [exact Hlt|]. cbn. intros; lia.
      * apply NoDup_app. repeat split; [done| |apply NoDup_singleton].
        intros x Hx ->%list_elem_of_singleton.
        rewrite Forall_forall in Hlt. apply Hlt in Hx. lia.
      * destruct (company_heap w' !! c) as [self'|] eqn:Hs'.
        -- destruct (call_company_heap _ _ _ _ _ _ _ Hc Hs')
             as [[Hn _]|(self0 & Hself0 & _ & _ & _ & Hd & _)]; [congruence|].
           rewrite Hd, Hcp. cbn. congruence.
        -- apply lookup_ge_None in Hs'. apply lookup_lt_Some in Hself. lia.
    + rewrite app_nil_r. repeat split; [|done|].
      * eapply Forall_impl; [exact Hlt|]. cbn. intros; lia.
      * destruct (company_heap w' !! c) as [self'|] eqn:Hs'.
        -- destruct (call_company_heap _ _ _ _ _ _ _ Hc Hs')
             as [[Hn [name ->]]|(self0 & Hself0 & _ & _ & _ & Hd & _)].
           ++ rewrite Hn in Hreg. by rewrite Hreg.
           ++ rewrite Hself0 in Hreg. rewrite Hd, Hcp, app_nil_r. done.
        -- apply lookup_ge_None in Hs'.
           rewrite (lookup_ge_None_2 (company_heap w) c) in Hreg; [done | lia].
Qed.

(** C8. After any session, [list_design_plans()] of a company returns one
    snapshot for each plan created through that company's
    [create_design_plan], in the order of creation (the created references are
    pairwise distinct), and each snapshot's [approved] entry is the [approved]
    flag the plan has in the graph at the time of the call. *)
Theorem list_design_plans_round_trip es l w c self :
  run es = Some (l, w) ->
  company_heap w !! c = Some self ->
  NoDup (created_plans c l) /\
  exists plans,
    Forall2 (fun a plan => plan_heap w !! a = Some plan) (created_plans c l) plans /\
    ConstructionCompany.list_design_plans (plan_heap w) self
      = Some (map DesignPlan.get_details plans) /\
    length (map DesignPlan.get_details plans) = length (created_plans c l) /\
    forall i plan, plans !! i = Some plan ->
      exists snapshot,
        map DesignPlan.get_details plans !! i = Some snapshot /\
        dict_get "approved" snapshot = Some (VBool (DesignPlan.approved plan)) /\
        dict_get "plan_id" snapshot = Some (VStr (DesignPlan.plan_id plan)).
Proof.
  intros Hrun Hs.
  destruct (registry_log_invariant_run c _ _ _ Hrun) as (Hlt & Hnd & Hreg).
  rewrite Hs in Hreg. split; [done|].
  destruct (deref_all_valid (plan_heap w) (created_plans c l) Hlt) as (plans & Hd & HF).
  exists plans. repeat split.
  - done.
  - unfold ConstructionCompany.list_design_plans. rewrite Hreg, Hd. done.
  - rewrite length_map. symmetry. by eapply Forall2_length.
  - intros i plan Hi. exists (DesignPlan.get_details plan). split; [|done].
    change (map DesignPlan.get_details plans) with (DesignPlan.get_details <$> plans).
    by rewrite list_lookup_fmap, Hi.
Qed.

(** *** More of the program: what the other methods and the callers do *)

Lemma dict_get_set_eq {V} (k : string) (v : V) d : dict_get k (dict_set k v d) = Some v.
Proof.
  induction d as [|[k' v'] d IH]; cbn.
  - by rewrite String.eqb_refl.
  - destruct (String.eqb k k') eqn:E; cbn; rewrite E; auto.
Qed.

Lemma dict_get_set_ne {V} (k k0 : string) (v : V) d :
  k0 <> k -> dict_get k0 (dict_set k v d) = dict_get k0 d.
Proof.
  intros Hne. induction d as [|[k' v'] d IH]; cbn.
  - by apply String.eqb_neq in Hne as ->.
  - destruct (String.eqb_spec k k') as [<-|Hk]; cbn.
    + apply String.eqb_neq in Hne. by rewrite Hne.
    + by rewrite IH.
Qed.

Lemma dict_set_keys {V} (k : string) (v : V) d :
  map fst (dict_set k v d)
  = match dict_get k d with Some _ => map fst d | None => map fst d ++ [k] end.
Proof.
  induction d as [|[k' v'] d IH]; cbn; [done|].
  destruct (String.eqb k k') eqn:E; cbn; [done|].
  rewrite IH. by destruct (dict_get k d).
Qed.

Lemma dict_get_None_keys {V} (k : string) (d : list (string * V)) :
  dict_get k d = None <-> k ∉ map fst d.
Proof.
  induction d as [|[k' v'] d IH]; cbn.
  - split; [intros _; apply not_elem_of_nil | done].
  - rewrite not_elem_of_cons. destruct (String.eqb_spec k k') as [->|Hk].
    + split; [done | intros [? _]; done].
    + rewrite IH. tauto.
Qed.

Lemma dict_set_NoDup {V} (k : string) (v : V) d :
  NoDup (map fst d) -> NoDup (map fst (dict_set k v d)).
Proof.
  intros Hnd. rewrite dict_set_keys. destruct (dict_get k d) eqn:E; [done|].
  apply NoDup_app. split; [done|]. split; [|apply NoDup_singleton].
  intros x Hx ->%list_elem_of_singleton. by apply dict_get_None_keys in E.
Qed.

(** X1. [add_specification(key, value)] is an upsert: afterwards the key
    reads back the value, every other key reads what it read before, an
    existing key keeps its place and a new one goes last, distinct keys stay
    distinct, and nothing but the specifications changes (an approved plan
    stays approved and can still be edited). *)
Theorem add_specification_upsert (self : DesignPlan.t) (key value : string) :
  let self' := DesignPlan.add_specification self key value in
  dict_get key (DesignPlan.specifications self') = Some value /\
  (forall k, k <> key ->
     dict_get k (DesignPlan.specifications self')
     = dict_get k (DesignPlan.specifications self)) /\
  map fst (DesignPlan.specifications self')
  = match dict_get key (DesignPlan.specifications self) with
    | Some _ => map fst (DesignPlan.specifications self)
    | None => map fst (DesignPlan.specifications self) ++ [key]
    end /\
  (NoDup (map fst (DesignPlan.specifications self)) ->
   NoDup (map fst (DesignPlan.specifications self'))) /\
  DesignPlan.approved self' = DesignPlan.approved self /\
  self' = DesignPlan.set_specifications (DesignPlan.specifications self') self.
Proof.
  cbn. repeat split.
  - apply dict_get_set_eq.
  - intros k Hk. by apply dict_get_set_ne.
  - apply dict_set_keys.
  - apply dict_set_NoDup.
Qed.


Lemma call_plan_cell now o w r w' a p' :
  call now o w = Some (r, w') ->
  plan_heap w' !! a = Some p' ->
  (plan_heap w !! a = None /\ DesignPlan.approved p' = false /\
   DesignPlan.specifications p' = []) \/
  (exists p, plan_heap w !! a = Some p /\
     DesignPlan.plan_id p' = DesignPlan.plan_id p /\
     DesignPlan.plan_type p' = DesignPlan.plan_type p /\
     DesignPlan.description p' = DesignPlan.description p /\
     DesignPlan.area_sqft p' = DesignPlan.area_sqft p /\
     DesignPlan.estimated_cost p' = DesignPlan.estimated_cost p /\
     DesignPlan.created_date p' = DesignPlan.created_date p /\
     (written o <> Some (KPlan, a) -> p' = p) /\
     (DesignPlan.approved p' = DesignPlan.approved p \/
      o = DesignPlan_approve_plan a /\ DesignPlan.approved p' = true) /\
     (DesignPlan.specifications p' = DesignPlan.specifications p \/
      exists key value, o = DesignPlan_add_specification a key value /\
        DesignPlan.specifications p'
        = dict_set key value (DesignPlan.specifications p))).
Proof.
  intros H Hp. call_inv H; cbn in Hp.
  all: try (right; eexists; split; [eassumption|]; by repeat split; auto).
  all: revert Hp; heap_simpl; intros Hp; simplify_eq; cbn.
  all: try (left; split; [by apply lookup_ge_None_2 | by auto]).
  all: right; eexists; (split; [eassumption|]); cbn; repeat split; eauto 10.
  all: try congruence.
Qed.

Lemma housing_lifecycle_init project_id project_name housing_type num_units :
  housing_lifecycle (HousingProject.__init__ project_id project_name housing_type num_units).
Proof. repeat split; cbn; auto; try done. Qed.

Lemma road_lifecycle_init project_id road_name road_type length_km :
  road_lifecycle (RoadProject.__init__ project_id road_name road_type length_km).
Proof. repeat split; cbn; auto; try done. intros [?|?]; done. Qed.

Lemma housing_start_plan plans now self n msg self' :
  HousingProject.start_construction plans now self n = Some (msg, self') ->
  is_error msg = false -> HousingProject.design_plan self <> None.
Proof.
  unfold HousingProject.start_construction.
  destruct (HousingProject.design_plan self); [done|]. intros [= <- <-]. done.
Qed.

Lemma road_start_plan plans now self n msg self' :
  RoadProject.start_construction plans now self n = Some (msg, self') ->
  is_error msg = false -> RoadProject.design_plan self <> None.
Proof.
  unfold RoadProject.start_construction.
  destruct (RoadProject.design_plan self); [done|]. intros [= <- <-]. done.
Qed.

Ltac splits := repeat match goal with |- _ /\ _ => split end.

Ltac lifecycle_tac :=
  match goal with
  | H : housing_lifecycle _ |- _ => destruct H as (Hs & Hp & Hn & Hd & Hc)
  | H : road_lifecycle _ |- _ => destruct H as (Hs & Hp & Hn & Hd & Hc)
  end;
  repeat split; cbn in *; auto; try done; try tauto;
  try (intros [?|?]; simplify_eq; tauto).

Lemma call_housing_cell now o w r w' h self' :
  call now o w = Some (r, w') ->
  housing_heap w' !! h = Some self' ->
  (housing_heap w !! h = None /\ adds_materials h (o, r) = false /\
   HousingProject.materials self' = [] /\ housing_lifecycle self') \/
  (exists self, housing_heap w !! h = Some self /\
     HousingProject.project_id self' = HousingProject.project_id self /\
     HousingProject.project_name self' = HousingProject.project_name self /\
     HousingProject.housing_type self' = HousingProject.housing_type self /\
     HousingProject.num_units self' = HousingProject.num_units self /\
     (written o <> Some (KHousing, h) -> self' = self) /\
     (exists items, HousingProject.materials self' = HousingProject.materials self ++ items /\
        length items = if adds_materials h (o, r) then 1%nat else 0%nat) /\
     (HousingProject.design_plan self <> None -> HousingProject.design_plan self' <> None) /\
     (housing_lifecycle self -> housing_lifecycle self')).
Proof.
  intros H Hh.
  assert (forall s : HousingProject.t, exists items : list pydict,
            HousingProject.materials s = HousingProject.materials s ++ items /\
            length items = 0%nat) as Hnil.
  { intros s. exists []. by rewrite app_nil_r. }
  destruct o; cbn in H; simplify_option_eq;
    repeat match goal with
           | H' : context [match ?x with (_, _) => _ end] |- _ => destruct x eqn:?
           end; simplify_option_eq; cbn in Hh.
  all: try (right; eexists; split; [eassumption|]; by splits; auto).
  all: revert Hh; heap_simpl; intros Hh; simplify_eq; cbn.
  all: try (left; split; [by apply lookup_ge_None_2|];
            split; [done|]; split; [done|]; apply housing_lifecycle_init).
  all: try (right; eexists; split; [eassumption|];
            by splits; auto; rewrite ?bool_decide_eq_false_2 by done; auto).
  all: right; eexists; (split; [eassumption|]).
  - (* assign_design_plan *)
    match goal with H : HousingProject.assign_design_plan _ _ _ = _ |- _ =>
      apply housing_assign_inv in H as [[? ->]|(? & ? & ? & ? & ? & ->)] end;
      splits; auto; try done; try exact (Hnil _); try (intros; lifecycle_tac).
  - (* start_construction *)
    match goal with H : HousingProject.start_construction _ _ _ _ = _ |- _ =>
      pose proof (housing_start_plan _ _ _ _ _ _ H) as Hplan;
      apply housing_start_inv in H as [[? ->]|[? ->]] end;
      splits; auto; try done; try exact (Hnil _); try (intros; lifecycle_tac).
  - (* add_materials *)
    splits; auto; try done;
      try (eexists; split; [reflexivity|]; by rewrite bool_decide_eq_true_2);
      try (intros; lifecycle_tac).
  - (* complete_project *)
    splits; auto; try done; try exact (Hnil _). intros; lifecycle_tac.
Qed.

Lemma call_road_cell now o w r w' a self' :
  call now o w = Some (r, w') ->
  road_heap w' !! a = Some self' ->
  (road_heap w !! a = None /\ adds_equipment a (o, r) = false /\
   RoadProject.equipment self' = [] /\ road_lifecycle self') \/
  (exists self, road_heap w !! a = Some self /\
     RoadProject.project_id self' = RoadProject.project_id self /\
     RoadProject.road_name self' = RoadProject.road_name self /\
     RoadProject.road_type self' = RoadProject.road_type self /\
     RoadProject.length_km self' = RoadProject.length_km self /\
     (written o <> Some (KRoad, a) -> self' = self) /\
     (exists items, RoadProject.equipment self' = RoadProject.equipment self ++ items /\
        length items = if adds_equipment a (o, r) then 1%nat else 0%nat) /\
     (RoadProject.design_plan self <> None -> RoadProject.design_plan self' <> None) /\
     (road_lifecycle self -> road_lifecycle self')).
Proof.
  intros H Hh.
  assert (forall s : RoadProject.t, exists items : list pydict,
            RoadProject.equipment s = RoadProject.equipment s ++ items /\
            length items = 0%nat) as Hnil.
  { intros s. exists []. by rewrite app_nil_r. }
  destruct o; cbn in H; simplify_option_eq;
    repeat match goal with
           | H' : context [match ?x with (_, _) => _ end] |- _ => destruct x eqn:?
           end; simplify_option_eq; cbn in Hh.
  all: try (right; eexists; split; [eassumption|]; by splits; auto).
  all: revert Hh; heap_simpl; intros Hh; simplify_eq; cbn.
  all: try (left; split; [by apply lookup_ge_None_2|];
            split; [done|]; split; [done|]; apply road_lifecycle_init).
  all: try (right; eexists; split; [eassumption|];
            by splits; auto; rewrite ?bool_decide_eq_false_2 by done; auto).
  all: right; eexists; (split; [eassumption|]).
  - (* assign_design_plan *)
    match goal with H : RoadProject.assign_design_plan _ _ _ = _ |- _ =>
      apply road_assign_inv in H as [[? ->]|(? & ? & ? & ? & ? & ->)] end;
      splits; auto; try done; try exact (Hnil _); try (intros; lifecycle_tac).
  - (* start_construction *)
    match goal with H : RoadProject.start_construction _ _ _ _ = _ |- _ =>
      pose proof (road_start_plan _ _ _ _ _ _ H) as Hplan;
      apply road_start_inv in H as [[? ->]|[? ->]] end;
      splits; auto; try done; try exact (Hnil _); try (intros; lifecycle_tac).
  - (* add_equipment *)
    splits; auto; try done;
      try (eexists; split; [reflexivity|]; by rewrite bool_decide_eq_true_2);
      try (intros; lifecycle_tac).
  - (* schedule_maintenance *)
    match goal with H : RoadProject.schedule_maintenance _ = _ |- _ =>
      apply road_maintenance_inv in H as [(? & ? & ->)|(? & ? & ->)] end;
      splits; auto; try done; try exact (Hnil _); try (intros; lifecycle_tac).
  - (* complete_project *)
    splits; auto; try done; try exact (Hnil _); try (intros; lifecycle_tac).
Qed.

Lemma call_company_cell now o w r w' c self' :
  call now o w = Some (r, w') ->
  company_heap w' !! c = Some self' ->
  (company_heap w !! c = None /\ exists name, self' = ConstructionCompany.__init__ name) \/
  (exists self, company_heap w !! c = Some self /\
     ConstructionCompany.company_name self' = ConstructionCompany.company_name self /\
     (written o <> Some (KCompany, c) -> self' = self) /\
     ConstructionCompany.design_plans self'
       = ConstructionCompany.design_plans self ++ option_list (created_plan c (o, r)) /\
     ConstructionCompany.housing_projects self'
       = ConstructionCompany.housing_projects self
           ++ option_list (created_housing c (o, r)) /\
     ConstructionCompany.road_projects self'
       = ConstructionCompany.road_projects self ++ option_list (created_road c (o, r))).
Proof.
  intros H Hc. call_inv H; cbn in Hc.
  all: try (right; eexists; split; [eassumption|]; cbn; rewrite ?app_nil_r; by auto 10).
  all: revert Hc; heap_simpl; intros Hc; simplify_eq; cbn.
  all: try (left; split; [by apply lookup_ge_None_2 | by eauto]).
  all: right; eexists; (split; [eassumption|]); cbn; rewrite ?app_nil_r.
  all: splits; auto; try done.
  all: try (case_decide; [done | by rewrite app_nil_r]).
Qed.

Lemma call_created_housing now o w r w' c a :
  call now o w = Some (r, w') ->
  created_housing c (o, r) = Some a ->
  is_Some (company_heap w !! c) /\ a = length (housing_heap w) /\
  (a < length (housing_heap w'))%nat.
Proof.
  intros H Hc. call_inv H. cbn. rewrite length_app. cbn. split; [eauto | lia].
Qed.

Lemma call_created_road now o w r w' c a :
  call now o w = Some (r, w') ->
  created_road c (o, r) = Some a ->
  is_Some (company_heap w !! c) /\ a = length (road_heap w) /\
  (a < length (road_heap w'))%nat.
Proof.
  intros H Hc. call_inv H. cbn. rewrite length_app. cbn. split; [eauto | lia].
Qed.

Lemma call_keeps_live now o w r w' :
  call now o w = Some (r, w') ->
  (forall a, is_Some (plan_heap w !! a) -> is_Some (plan_heap w' !! a)) /\
  (forall a, is_Some (housing_heap w !! a) -> is_Some (housing_heap w' !! a)) /\
  (forall a, is_Some (road_heap w !! a) -> is_Some (road_heap w' !! a)) /\
  (forall a, is_Some (company_heap w !! a) -> is_Some (company_heap w' !! a)).
Proof.
  intros Hc. destruct (call_heap_lengths _ _ _ _ _ Hc) as (? & ? & ? & ?).
  splits; intros a Ha%lookup_lt_is_Some; apply lookup_lt_is_Some; lia.
Qed.

Lemma call_continues now o w r w' : call now o w = Some (r, w') -> continues w w'.
Proof.
  intros Hc. destruct (call_keeps_live _ _ _ _ _ Hc) as (Lp & Lh & Lr & Lc).
  unfold continues. splits.
  - intros a p Hp. destruct (Lp a) as [p' Hp']; [eauto|]. exists p'. split; [done|].
    destruct (call_plan_cell _ _ _ _ _ _ _ Hc Hp')
      as [[Hn _]|(p0 & Hp0 & ? & ? & ? & ? & ? & ? & _ & Ha & _)]; [congruence|].
    assert (p0 = p) as -> by congruence.
    splits; auto. destruct Ha as [->|[_ ->]]; auto.
  - intros h s Hs. destruct (Lh h) as [s' Hs']; [eauto|]. exists s'. split; [done|].
    destruct (call_housing_cell _ _ _ _ _ _ _ Hc Hs')
      as [[Hn _]|(s0 & Hs0 & ? & ? & ? & ? & _ & (items & Hi & _) & ? & _)]; [congruence|].
    assert (s0 = s) as -> by congruence.
    splits; auto. by exists items.
  - intros a s Hs. destruct (Lr a) as [s' Hs']; [eauto|]. exists s'. split; [done|].
    destruct (call_road_cell _ _ _ _ _ _ _ Hc Hs')
      as [[Hn _]|(s0 & Hs0 & ? & ? & ? & ? & _ & (items & Hi & _) & ? & _)]; [congruence|].
    assert (s0 = s) as -> by congruence.
    splits; auto. by exists items.
  - intros c s Hs. destruct (Lc c) as [s' Hs']; [eauto|]. exists s'. split; [done|].
    destruct (call_company_cell _ _ _ _ _ _ _ Hc Hs')
      as [[Hn _]|(s0 & Hs0 & ? & _ & Hd & Hh & Hr)]; [congruence|].
    assert (s0 = s) as -> by congruence.
    splits; auto; eexists; eassumption.
Qed.

Lemma continues_refl w : continues w w.
Proof. unfold continues. splits; intros a x Hx; exists x; splits; auto. Qed.

Lemma continues_trans w1 w2 w3 : continues w1 w2 -> continues w2 w3 -> continues w1 w3.
Proof.
  intros (P1 & H1 & R1 & C1) (P2 & H2 & R2 & C2). unfold continues. splits.
  - intros a p Hp. destruct (P1 _ _ Hp) as (p' & Hp' & ? & ? & ? & ? & ? & ? & ?).
    destruct (P2 _ _ Hp') as (p'' & Hp'' & ? & ? & ? & ? & ? & ? & ?).
    exists p''. splits; auto; congruence.
  - intros a s Hs. destruct (H1 _ _ Hs) as (s' & Hs' & ? & ? & ? & ? & ? & ?).
    destruct (H2 _ _ Hs') as (s'' & Hs'' & ? & ? & ? & ? & ? & ?).
    exists s''. splits; auto; try congruence. by etrans.
  - intros a s Hs. destruct (R1 _ _ Hs) as (s' & Hs' & ? & ? & ? & ? & ? & ?).
    destruct (R2 _ _ Hs') as (s'' & Hs'' & ? & ? & ? & ? & ? & ?).
    exists s''. splits; auto; try congruence. by etrans.
  - intros a s Hs. destruct (C1 _ _ Hs) as (s' & Hs' & ? & ? & ? & ?).
    destruct (C2 _ _ Hs') as (s'' & Hs'' & ? & ? & ? & ?).
    exists s''. splits; auto; try congruence; by etrans.
Qed.

Lemma exec_continues (es : list event) st l w l' w' :
  st = Some (l, w) -> fold_left exec es st = Some (l', w') -> continues w w'.
Proof.
  revert st l w. induction es as [|[now o] es IH]; intros st l w -> Hrun.
  - cbn in Hrun. simplify_eq. apply continues_refl.
  - cbn in Hrun. destruct (call now o w) as [[r w1]|] eqn:Hc; cbn in Hrun.
    + eapply continues_trans; [by eapply call_continues|]. by eapply IH.
    + assert (fold_left exec es None = Some (l', w')) as Hrun' by exact Hrun.
      by rewrite exec_None in Hrun'.
Qed.

(** X2. No call, and so no continuation of a session, removes an object or
    rewrites what it was constructed with: ids, names, types, sizes and the
    creation date stay, approval and an assigned design plan are not taken
    back, and materials, equipment and the company's three collections only
    grow at the end. *)
Theorem nothing_removed_or_rewritten :
  (forall now o w r w', call now o w = Some (r, w') -> continues w w') /\
  (forall es1 es2 l1 w1 l2 w2,
     run es1 = Some (l1, w1) -> run (es1 ++ es2) = Some (l2, w2) -> continues w1 w2).
Proof.
  split; [apply call_continues|].
  intros es1 es2 l1 w1 l2 w2 H1 H2. rewrite run_app in H2.
  by eapply exec_continues.
Qed.

Lemma query_unchanged now o w r w' :
  call now o w = Some (r, w') -> is_query o = true -> w' = w.
Proof. intros H Hq. destruct o; try discriminate; cbn in H; by simplify_option_eq. Qed.

(** X3. A call writes to its receiver only: every other plan, project and
    company is afterwards exactly what it was (a method on a project never
    touches the plan it refers to or the company that lists it), and the
    [get_*], [list_*] and [generate_report] calls change nothing at all. *)
Theorem call_writes_receiver_only now o w r w' :
  call now o w = Some (r, w') ->
  (forall a p, plan_heap w !! a = Some p -> written o <> Some (KPlan, a) ->
     plan_heap w' !! a = Some p) /\
  (forall h s, housing_heap w !! h = Some s -> written o <> Some (KHousing, h) ->
     housing_heap w' !! h = Some s) /\
  (forall a s, road_heap w !! a = Some s -> written o <> Some (KRoad, a) ->
     road_heap w' !! a = Some s) /\
  (forall c s, company_heap w !! c = Some s -> written o <> Some (KCompany, c) ->
     company_heap w' !! c = Some s) /\
  (is_query o = true -> w' = w).
Proof.
  intros Hc. destruct (call_keeps_live _ _ _ _ _ Hc) as (Lp & Lh & Lr & Lc).
  splits.
  - intros a p Hp Hw. destruct (Lp a) as [p' Hp']; [eauto|].
    destruct (call_plan_cell _ _ _ _ _ _ _ Hc Hp')
      as [[Hn _]|(p0 & Hp0 & _ & _ & _ & _ & _ & _ & Hsame & _)]; [congruence|].
    rewrite Hp', (Hsame Hw). congruence.
  - intros a p Hp Hw. destruct (Lh a) as [p' Hp']; [eauto|].
    destruct (call_housing_cell _ _ _ _ _ _ _ Hc Hp')
      as [[Hn _]|(p0 & Hp0 & _ & _ & _ & _ & Hsame & _)]; [congruence|].
    rewrite Hp', (Hsame Hw). congruence.
  - intros a p Hp Hw. destruct (Lr a) as [p' Hp']; [eauto|].
    destruct (call_road_cell _ _ _ _ _ _ _ Hc Hp')
      as [[Hn _]|(p0 & Hp0 & _ & _ & _ & _ & Hsame & _)]; [congruence|].
    rewrite Hp', (Hsame Hw). congruence.
  - intros a p Hp Hw. destruct (Lc a) as [p' Hp']; [eauto|].
    destruct (call_company_cell _ _ _ _ _ _ _ Hc Hp')
      as [[Hn _]|(p0 & Hp0 & _ & Hsame & _)]; [congruence|].
    rewrite Hp', (Hsame Hw). congruence.
  - by eapply query_unchanged.
Qed.

Lemma filter_snoc {A} (f : A -> bool) (l : list A) (x : A) :
  List.filter f (l ++ [x]) = List.filter f l ++ (if f x then [x] else []).
Proof. rewrite List.filter_app. cbn. by destruct (f x). Qed.

Lemma line_items_run es l w :
  run es = Some (l, w) ->
  (forall h, match housing_heap w !! h with
             | Some s => length (HousingProject.materials s)
                         = length (List.filter (adds_materials h) l)
             | None => List.filter (adds_materials h) l = []
             end) /\
  (forall a, match road_heap w !! a with
             | Some s => length (RoadProject.equipment s)
                         = length (List.filter (adds_equipment a) l)
             | None => List.filter (adds_equipment a) l = []
             end).
Proof.
  revert es l w. apply run_ind.
  - split; intros a; cbn; by rewrite lookup_nil.
  - intros now o l w r w' [IHh IHr] Hc.
    destruct (call_keeps_live _ _ _ _ _ Hc) as (_ & Lh & Lr & _).
    split; intros a; rewrite filter_snoc.
    + specialize (IHh a). destruct (housing_heap w' !! a) as [s'|] eqn:Hs'.
      * destruct (call_housing_cell _ _ _ _ _ _ _ Hc Hs')
          as [(Hn & -> & -> & _)|(s & Hs & _ & _ & _ & _ & _ & (items & -> & Hi) & _)].
        -- rewrite Hn in IHh. by rewrite IHh.
        -- rewrite Hs in IHh. rewrite !length_app, IHh, Hi.
           by destruct (adds_materials a (o, r)).
      * destruct (housing_heap w !! a) as [s|] eqn:Hs.
        { destruct (Lh a) as [? ?]; [eauto|congruence]. }
        rewrite IHh. cbn.
        destruct (adds_materials a (o, r)) eqn:Ha; [|done].
        exfalso. unfold adds_materials in Ha. cbn in Ha.
        destruct o; try discriminate. apply bool_decide_eq_true in Ha as ->.
        cbn in Hc. rewrite Hs in Hc. discriminate.
    + specialize (IHr a). destruct (road_heap w' !! a) as [s'|] eqn:Hs'.
      * destruct (call_road_cell _ _ _ _ _ _ _ Hc Hs')
          as [(Hn & -> & -> & _)|(s & Hs & _ & _ & _ & _ & _ & (items & -> & Hi) & _)].
        -- rewrite Hn in IHr. by rewrite IHr.
        -- rewrite Hs in IHr. rewrite !length_app, IHr, Hi.
           by destruct (adds_equipment a (o, r)).
      * destruct (road_heap w !! a) as [s|] eqn:Hs.
        { destruct (Lr a) as [? ?]; [eauto|congruence]. }
        rewrite IHr. cbn.
        destruct (adds_equipment a (o, r)) eqn:Ha; [|done].
        exfalso. unfold adds_equipment in Ha. cbn in Ha.
        destruct o; try discriminate. apply bool_decide_eq_true in Ha as ->.
        cbn in Hc. rewrite Hs in Hc. discriminate.
Qed.

(** X4. After any session, the [materials_count] a housing project reports
    is the number of [add_materials] calls made on it, and the
    [equipment_count] a road project reports is the number of [add_equipment]
    calls made on it. *)
Theorem line_item_counts es l w :
  run es = Some (l, w) ->
  (forall h s, housing_heap w !! h = Some s ->
     dict_get "materials_count" (HousingProject.get_project_info s)
     = Some (VInt (Z.of_nat (length (List.filter (adds_materials h) l))))) /\
  (forall a s, road_heap w !! a = Some s ->
     dict_get "equipment_count" (RoadProject.get_project_info s)
     = Some (VInt (Z.of_nat (length (List.filter (adds_equipment a) l))))).
Proof.
  intros Hrun. destruct (line_items_run _ _ _ Hrun) as [Hh Hr]. split.
  - intros h s Hs. specialize (Hh h). rewrite Hs in Hh. cbn. unfold len. by rewrite Hh.
  - intros a s Hs. specialize (Hr a). rewrite Hs in Hr. cbn. unfold len. by rewrite Hr.
Qed.

Lemma reachable_design_plan_invariant w : reachable w -> design_plan_invariant w.
Proof.
  apply reachable_ind.
  - split; intros a self H; cbn in H; by rewrite lookup_nil in H.
  - intros. by eapply design_plan_invariant_step.
Qed.

Lemma lifecycle_reachable w :
  reachable w ->
  (forall h s, housing_heap w !! h = Some s -> housing_lifecycle s) /\
  (forall a s, road_heap w !! a = Some s -> road_lifecycle s).
Proof.
  revert w.
  apply (reachable_ind (fun w =>
    (forall h s, housing_heap w !! h = Some s -> housing_lifecycle s) /\
    (forall a s, road_heap w !! a = Some s -> road_lifecycle s))).
  - split; intros a s H; cbn in H; by rewrite lookup_nil in H.
  - intros now o w0 r w' [IHh IHr] Hc. split.
    + intros h s' Hs'.
      destruct (call_housing_cell _ _ _ _ _ _ _ Hc Hs')
        as [(_ & _ & _ & HL)|(s & Hs & _ & _ & _ & _ & _ & _ & _ & HL)]; eauto.
    + intros a s' Hs'.
      destruct (call_road_cell _ _ _ _ _ _ _ Hc Hs')
        as [(_ & _ & _ & HL)|(s & Hs & _ & _ & _ & _ & _ & _ & _ & HL)]; eauto.
Qed.

(** X5. In every reachable graph a housing project's status is [planned],
    [in_progress] or [completed] (a road's may also be [maintenance]); a
    planned project has no start and no completion date; a project without
    start date has 0 workers and is not in progress; a project with a start
    date has a design plan; a completed road or one under maintenance has a
    completion date; and a project in progress has an approved design
    plan. *)
Theorem project_lifecycle w :
  reachable w ->
  (forall h s, housing_heap w !! h = Some s ->
     housing_lifecycle s /\
     (HousingProject.status s = "in_progress" ->
      has_approved_plan (plan_heap w) (HousingProject.design_plan s))) /\
  (forall a s, road_heap w !! a = Some s ->
     road_lifecycle s /\
     (RoadProject.status s = "in_progress" ->
      has_approved_plan (plan_heap w) (RoadProject.design_plan s))).
Proof.
  intros Hr. destruct (lifecycle_reachable _ Hr) as [Lh Lr].
  destruct (reachable_design_plan_invariant _ Hr) as [Ih Ir]. split.
  - intros h s Hs. split; [by eapply Lh|]. intros Hst.
    destruct (Lh _ _ Hs) as (_ & _ & Hn & Hd & _).
    destruct (HousingProject.start_date s) eqn:Hsd; [|by destruct Hn].
    destruct (HousingProject.design_plan s) as [p|] eqn:Hdp; [|by destruct Hd].
    specialize (Ih _ _ Hs p). rewrite Hdp in Ih.
    destruct (Ih eq_refl) as (plan & ? & ? & _). by exists p, plan.
  - intros a s Hs. split; [by eapply Lr|]. intros Hst.
    destruct (Lr _ _ Hs) as (_ & _ & Hn & Hd & _).
    destruct (RoadProject.start_date s) eqn:Hsd; [|by destruct Hn].
    destruct (RoadProject.design_plan s) as [p|] eqn:Hdp; [|by destruct Hd].
    specialize (Ir _ _ Hs p). rewrite Hdp in Ir.
    destruct (Ir eq_refl) as (plan & ? & ? & _). by exists p, plan.
Qed.

Lemma call_plan_exact now o w r w' a p :
  call now o w = Some (r, w') ->
  plan_heap w !! a = Some p ->
  exists p', plan_heap w' !! a = Some p' /\
    DesignPlan.approved p' = DesignPlan.approved p || approves a (o, r) /\
    DesignPlan.specifications p'
    = match spec_write a (o, r) with
      | Some kv => dict_set kv.1 kv.2 (DesignPlan.specifications p)
      | None => DesignPlan.specifications p
      end.
Proof.
  intros H Ha. pose proof (heap_old_not_fresh _ _ _ Ha).
  call_inv H; unfold approves, spec_write; cbn; heap_simpl;
    rewrite ?orb_false_r; eauto.
  all: try (eexists; split; [reflexivity|]; cbn;
            rewrite ?bool_decide_eq_true_2, ?bool_decide_eq_false_2, ?orb_true_r,
              ?orb_false_r by done;
            by repeat case_decide).
Qed.

Lemma call_plan_fresh now o w r w' a :
  call now o w = Some (r, w') ->
  plan_heap w !! a = None ->
  approves a (o, r) = false /\ spec_write a (o, r) = None.
Proof.
  intros H Ha. unfold approves, spec_write.
  destruct o; cbn in *; auto; simplify_option_eq; done.
Qed.

Lemma replay_snoc ws kv : replay (ws ++ [kv]) = dict_set kv.1 kv.2 (replay ws).
Proof. unfold replay. by rewrite fold_left_app. Qed.

Lemma replay_NoDup ws : NoDup (map fst (replay ws)).
Proof.
  induction ws as [|kv ws IH] using rev_ind.
  - apply NoDup_nil_2.
  - rewrite replay_snoc. by apply dict_set_NoDup.
Qed.

(** Reading a replayed dict gives the value written last for the key. *)
Lemma replay_last_write ws k :
  dict_get k (replay ws)
  = snd <$> last (List.filter (fun kv => String.eqb kv.1 k) ws).
Proof.
  induction ws as [|[k' v] ws IH] using rev_ind; [done|].
  rewrite replay_snoc, filter_snoc. cbn.
  destruct (String.eqb_spec k' k) as [->|Hne].
  - by rewrite dict_get_set_eq, last_snoc.
  - rewrite dict_get_set_ne by done. by rewrite app_nil_r.
Qed.

Lemma plan_log_run es l w :
  run es = Some (l, w) ->
  forall a, match plan_heap w !! a with
            | Some p => DesignPlan.specifications p = replay (omap (spec_write a) l) /\
                        DesignPlan.approved p = existsb (approves a) l
            | None => omap (spec_write a) l = [] /\ existsb (approves a) l = false
            end.
Proof.
  revert es l w.
  apply (run_ind (fun l w => forall a,
    match plan_heap w !! a with
    | Some p => DesignPlan.specifications p = replay (omap (spec_write a) l) /\
                DesignPlan.approved p = existsb (approves a) l
    | None => omap (spec_write a) l = [] /\ existsb (approves a) l = false
    end)).
  - intros a. cbn. by rewrite lookup_nil.
  - intros now o l w r w' IH Hc a. specialize (IH a).
    rewrite omap_app, existsb_app. cbn. rewrite orb_false_r.
    destruct (plan_heap w !! a) as [p|] eqn:Hp.
    + destruct IH as [IHs IHa].
      destruct (call_plan_exact _ _ _ _ _ _ _ Hc Hp) as (p' & -> & -> & ->).
      rewrite IHs, IHa. split; [|done].
      destruct (spec_write a (o, r)) as [kv|]; cbn.
      * by rewrite replay_snoc.
      * by rewrite app_nil_r.
    + destruct IH as [IHs IHa].
      destruct (call_plan_fresh _ _ _ _ _ a Hc Hp) as [-> ->]. cbn.
      rewrite IHs, IHa. cbn.
      destruct (plan_heap w' !! a) as [p'|] eqn:Hp'; [|done].
      destruct (call_plan_cell _ _ _ _ _ _ _ Hc Hp') as [(_ & -> & ->)|(p & Hp0 & _)];
        [done | congruence].
Qed.

(** X6. After any session a plan's specifications are the
    [add_specification] calls made on it, replayed in order from the empty
    dict: the keys are distinct, a key reads the value written last for it
    (nothing if it was never written), and the plan is approved exactly when
    [approve_plan()] was called on it. *)
Theorem plan_is_what_the_log_wrote es l w a p :
  run es = Some (l, w) ->
  plan_heap w !! a = Some p ->
  DesignPlan.specifications p = replay (omap (spec_write a) l) /\
  NoDup (map fst (DesignPlan.specifications p)) /\
  (forall k, dict_get k (DesignPlan.specifications p)
             = snd <$> last (List.filter (fun kv => String.eqb kv.1 k)
                               (omap (spec_write a) l))) /\
  DesignPlan.approved p = existsb (approves a) l.
Proof.
  intros Hrun Hp. pose proof (plan_log_run _ _ _ Hrun a) as H. rewrite Hp in H.
  destruct H as [Hs Ha]. splits; auto.
  - rewrite Hs. apply replay_NoDup.
  - intros k. rewrite Hs. apply replay_last_write.
Qed.

(** One proof for the three collections of a company: what the factory
    returned is what the collection holds. *)
Lemma registry_generic
    (created : addr -> op * result -> option addr)
    (size : World -> nat) (proj : ConstructionCompany.t -> list addr) :
  size empty_world = 0%nat ->
  (forall now o w r w', call now o w = Some (r, w') -> (size w <= size w')%nat) ->
  (forall now o w r w' c a, call now o w = Some (r, w') -> created c (o, r) = Some a ->
     is_Some (company_heap w !! c) /\ a = size w /\ (a < size w')%nat) ->
  (forall now o w r w' c s', call now o w = Some (r, w') ->
     company_heap w' !! c = Some s' ->
     (company_heap w !! c = None /\ proj s' = []) \/
     (exists s, company_heap w !! c = Some s /\
                proj s' = proj s ++ option_list (created c (o, r)))) ->
  forall c es l w, run es = Some (l, w) ->
    Forall (fun a => (a < size w)%nat) (omap (created c) l) /\
    NoDup (omap (created c) l) /\
    match company_heap w !! c with
    | Some s => proj s = omap (created c) l
    | None => omap (created c) l = []
    end.
Proof.
  intros Hsize0 Hmono Hnew Hcell c.
  apply (run_ind (fun l w =>
    Forall (fun a => (a < size w)%nat) (omap (created c) l) /\
    NoDup (omap (created c) l) /\
    match company_heap w !! c with
    | Some s => proj s = omap (created c) l
    | None => omap (created c) l = []
    end)).
  - split; [|split]; cbn.
    + by apply Forall_nil_2.
    + by apply NoDup_nil_2.
    + by rewrite lookup_nil.
  - intros now o l w r w' (Hlt & Hnd & Hreg) Hc.
    pose proof (Hmono _ _ _ _ _ Hc) as Hle.
    destruct (call_heap_lengths _ _ _ _ _ Hc) as (_ & _ & _ & Lc).
    rewrite omap_app.
    assert (omap (created c) [(o, r)] = option_list (created c (o, r))) as ->.
    { cbn. by destruct (created c (o, r)). }
    destruct (created c (o, r)) as [a|] eqn:Hcr; cbn.
    + destruct (Hnew _ _ _ _ _ _ _ Hc Hcr) as ([s Hs] & -> & Ha).
      rewrite Hs in Hreg. splits.
      * apply Forall_app. split; [|by repeat constructor].
        eapply Forall_impl; [exact Hlt|]. cbn. intros; lia.
      * apply NoDup_app. splits; [done| |apply NoDup_singleton].
        intros x Hx ->%list_elem_of_singleton.
        rewrite Forall_forall in Hlt. apply Hlt in Hx. lia.
      * destruct (company_heap w' !! c) as [s'|] eqn:Hs'.
        -- destruct (Hcell _ _ _ _ _ _ _ Hc Hs') as [[Hn _]|(s0 & Hs0 & Hd)];
             [congruence|].
           rewrite Hd, Hcr. cbn. congruence.
        -- apply lookup_ge_None in Hs'. apply lookup_lt_Some in Hs. lia.
    + rewrite app_nil_r. splits; [|done|].
      * eapply Forall_impl; [exact Hlt|]. cbn. intros; lia.
      * destruct (company_heap w' !! c) as [s'|] eqn:Hs'.
        -- destruct (Hcell _ _ _ _ _ _ _ Hc Hs') as [[Hn Hp]|(s0 & Hs0 & Hd)].
           ++ rewrite Hn in Hreg. by rewrite Hreg.
           ++ rewrite Hs0 in Hreg. rewrite Hd, Hcr, app_nil_r. done.
        -- apply lookup_ge_None in Hs'.
           rewrite (lookup_ge_None_2 (company_heap w) c) in Hreg; [done | lia].
Qed.

Lemma housing_registry c es l w :
  run es = Some (l, w) ->
  refs_valid (housing_heap w) (created_housings c l) /\
  NoDup (created_housings c l) /\
  match company_heap w !! c with
  | Some s => ConstructionCompany.housing_projects s = created_housings c l
  | None => created_housings c l = []
  end.
Proof.
  apply (registry_generic created_housing (fun w => length (housing_heap w))
           ConstructionCompany.housing_projects).
  - done.
  - intros now o w0 r w' Hc. by destruct (call_heap_lengths _ _ _ _ _ Hc) as (_ & ? & _).
  - intros. by eapply call_created_housing.
  - intros now o w0 r w' c0 s' Hc Hs'.
    destruct (call_company_cell _ _ _ _ _ _ _ Hc Hs')
      as [[Hn [name ->]]|(s & Hs & _ & _ & _ & Hh & _)]; eauto.
Qed.

Lemma road_registry c es l w :
  run es = Some (l, w) ->
  refs_valid (road_heap w) (created_roads c l) /\
  NoDup (created_roads c l) /\
  match company_heap w !! c with
  | Some s => ConstructionCompany.road_projects s = created_roads c l
  | None => created_roads c l = []
  end.
Proof.
  apply (registry_generic created_road (fun w => length (road_heap w))
           ConstructionCompany.road_projects).
  - done.
  - intros now o w0 r w' Hc.
    by destruct (call_heap_lengths _ _ _ _ _ Hc) as (_ & _ & ? & _).
  - intros. by eapply call_created_road.
  - intros now o w0 r w' c0 s' Hc Hs'.
    destruct (call_company_cell _ _ _ _ _ _ _ Hc Hs')
      as [[Hn [name ->]]|(s & Hs & _ & _ & _ & _ & Hr)]; eauto.
Qed.

(** X7. After any session, [list_housing_projects()] and
    [list_road_projects()] of a company return one snapshot for each project
    created through that company's [create_housing_project] and
    [create_road_project], in the order of creation (the references are
    pairwise distinct), and a snapshot's id, status, worker count and
    [has_design_plan] are those of the project at the time of the call. *)
Theorem list_projects_round_trip es l w c self :
  run es = Some (l, w) ->
  company_heap w !! c = Some self ->
  (NoDup (created_housings c l) /\
   exists projects,
     Forall2 (fun a p => housing_heap w !! a = Some p) (created_housings c l) projects /\
     ConstructionCompany.list_housing_projects (housing_heap w) self
       = Some (map HousingProject.get_project_info projects) /\
     forall i p, projects !! i = Some p ->
       exists snapshot,
         map HousingProject.get_project_info projects !! i = Some snapshot /\
         dict_get "project_id" snapshot = Some (VStr (HousingProject.project_id p)) /\
         dict_get "status" snapshot = Some (VStr (HousingProject.status p)) /\
         dict_get "workers" snapshot = Some (VInt (HousingProject.workers_assigned p)) /\
         dict_get "has_design_plan" snapshot
           = Some (VBool (bool_decide (HousingProject.design_plan p <> None)))) /\
  (NoDup (created_roads c l) /\
   exists projects,
     Forall2 (fun a p => road_heap w !! a = Some p) (created_roads c l) projects /\
     ConstructionCompany.list_road_projects (road_heap w) self
       = Some (map RoadProject.get_project_info projects) /\
     forall i p, projects !! i = Some p ->
       exists snapshot,
         map RoadProject.get_project_info projects !! i = Some snapshot /\
         dict_get "project_id" snapshot = Some (VStr (RoadProject.project_id p)) /\
         dict_get "status" snapshot = Some (VStr (RoadProject.status p)) /\
         dict_get "workers" snapshot = Some (VInt (RoadProject.workers_assigned p)) /\
         dict_get "has_design_plan" snapshot
           = Some (VBool (bool_decide (RoadProject.design_plan p <> None)))).
Proof.
  intros Hrun Hs. split.
  - destruct (housing_registry c _ _ _ Hrun) as (Hv & Hnd & Hreg).
    rewrite Hs in Hreg. split; [done|].
    destruct (deref_all_valid _ _ Hv) as (projects & Hd & HF).
    exists projects. splits; [done| |].
    + unfold ConstructionCompany.list_housing_projects. by rewrite Hreg, Hd.
    + intros i p Hi. exists (HousingProject.get_project_info p). split; [|done].
      change (map HousingProject.get_project_info projects)
        with (HousingProject.get_project_info <$> projects).
      by rewrite list_lookup_fmap, Hi.
  - destruct (road_registry c _ _ _ Hrun) as (Hv & Hnd & Hreg).
    rewrite Hs in Hreg. split; [done|].
    destruct (deref_all_valid _ _ Hv) as (projects & Hd & HF).
    exists projects. splits; [done| |].
    + unfold ConstructionCompany.list_road_projects. by rewrite Hreg, Hd.
    + intros i p Hi. exists (RoadProject.get_project_info p). split; [|done].
      change (map RoadProject.get_project_info projects)
        with (RoadProject.get_project_info <$> projects).
      by rewrite list_lookup_fmap, Hi.
Qed.

Lemma string_app_assoc (s t u : string) : (s +:+ t) +:+ u = s +:+ t +:+ u.
Proof. induction s as [|c s IH]; [done|]. rewrite !append_head. by rewrite IH. Qed.

Lemma string_app_empty (s : string) : s +:+ "" = s.
Proof. induction s as [|c s IH]; [done|]. rewrite append_head. by rewrite IH. Qed.

Lemma fold_left_append_lines (l : list string) (s : string) :
  fold_left String.append l s = s +:+ lines l.
Proof.
  revert s. induction l as [|x l IH]; intros s; cbn.
  - by rewrite string_app_empty.
  - rewrite IH. apply string_app_assoc.
Qed.

Lemma mapM_total {A B} (f : A -> option B) (g : A -> B) (l : list A) :
  (forall x, f x = Some (g x)) -> mapM f l = Some (map g l).
Proof.
  intros Hf. apply mapM_Some_2. induction l; constructor; auto.
Qed.

Lemma get_all_projects_of housings roads self hs rs :
  ConstructionCompany.deref_all housings (ConstructionCompany.housing_projects self)
    = Some hs ->
  ConstructionCompany.deref_all roads (ConstructionCompany.road_projects self) = Some rs ->
  ConstructionCompany.get_all_projects housings roads self
  = Some [ ("company_name", VStr (ConstructionCompany.company_name self));
           ("total_housing_projects", VInt (len (ConstructionCompany.housing_projects self)));
           ("total_road_projects", VInt (len (ConstructionCompany.road_projects self)));
           ("total_design_plans", VInt (len (ConstructionCompany.design_plans self)));
           ("active_housing_projects",
              VInt (Z.of_nat (length (List.filter
                (fun p => String.eqb (HousingProject.status p) "in_progress") hs))));
           ("active_road_projects",
              VInt (Z.of_nat (length (List.filter
                (fun p => String.eqb (RoadProject.status p) "in_progress") rs))));
           ("total_active_projects",
              VInt (Z.of_nat (length (List.filter
                      (fun p => String.eqb (HousingProject.status p) "in_progress") hs))
                    + Z.of_nat (length (List.filter
                      (fun p => String.eqb (RoadProject.status p) "in_progress") rs)))) ].
Proof.
  intros Hh Hr. unfold ConstructionCompany.get_all_projects. rewrite Hh, Hr. cbn.
  by rewrite !py_sum_ones.
Qed.

Lemma generate_report_of housings roads now self hs rs :
  ConstructionCompany.deref_all housings (ConstructionCompany.housing_projects self)
    = Some hs ->
  ConstructionCompany.deref_all roads (ConstructionCompany.road_projects self) = Some rs ->
  ConstructionCompany.generate_report housings roads now self
  = Some (report_head (ConstructionCompany.company_name self)
            (len (ConstructionCompany.housing_projects self))
            (len (ConstructionCompany.road_projects self))
            (len (ConstructionCompany.design_plans self))
            (Z.of_nat (length (List.filter
                (fun p => String.eqb (HousingProject.status p) "in_progress") hs))
             + Z.of_nat (length (List.filter
                (fun p => String.eqb (RoadProject.status p) "in_progress") rs)))
          +:+ lines (map housing_entry hs) +:+ report_middle
          +:+ lines (map road_entry rs) +:+ report_foot now).
Proof.
  intros Hh Hr. unfold ConstructionCompany.generate_report.
  rewrite (get_all_projects_of _ _ _ _ _ Hh Hr). cbn -[String.append ConstructionCompany.banner].
  rewrite Hh, Hr. cbn -[String.append ConstructionCompany.banner].
  rewrite (mapM_total ConstructionCompany.housing_line housing_entry) by done.
  cbn -[String.append ConstructionCompany.banner].
  rewrite (mapM_total ConstructionCompany.road_line road_entry) by done.
  cbn -[String.append ConstructionCompany.banner].
  f_equal. rewrite !fold_left_append_lines.
  unfold report_head, report_middle, report_foot.
  rewrite !string_app_assoc. reflexivity.
Qed.

(** X8. In every reachable graph [generate_report()] returns (no lookup
    fails) and changes nothing; the report is the header with the three
    totals and the number of projects in progress, one line per housing
    project in the collection's order, the road heading, one line per road
    project in the collection's order, and the footer with the clock
    reading. *)
Theorem generate_report_contents now w c self :
  reachable w ->
  company_heap w !! c = Some self ->
  exists hs rs,
    Forall2 (fun a p => housing_heap w !! a = Some p)
      (ConstructionCompany.housing_projects self) hs /\
    Forall2 (fun a p => road_heap w !! a = Some p)
      (ConstructionCompany.road_projects self) rs /\
    call now (Company_generate_report c) w
    = Some (RStr (report_head (ConstructionCompany.company_name self)
                    (Z.of_nat (length (ConstructionCompany.housing_projects self)))
                    (Z.of_nat (length (ConstructionCompany.road_projects self)))
                    (Z.of_nat (length (ConstructionCompany.design_plans self)))
                    (Z.of_nat (active_housing w self + active_roads w self))
                  +:+ lines (map housing_entry hs) +:+ report_middle
                  +:+ lines (map road_entry rs) +:+ report_foot now),
            w).
Proof.
  intros Hr Hs. destruct (reachable_well_formed _ Hr _ _ Hs) as (_ & Vh & Vr).
  destruct (deref_all_valid _ _ Vh) as (hs & Hhs & Fh).
  destruct (deref_all_valid _ _ Vr) as (rs & Hrs & Fr).
  exists hs, rs. splits; [done | done |].
  cbn. rewrite Hs. cbn. rewrite (generate_report_of _ _ _ _ _ _ Hhs Hrs). cbn.
  rewrite (filter_deref _ _ _ _ Fh), (filter_deref _ _ _ _ Fr).
  unfold len, active_housing, active_roads, housing_in_progress, road_in_progress.
  by rewrite Nat2Z.inj_add.
Qed.


Lemma lookup_live {A} (heap : list A) (a : nat) (x : A) :
  heap !! a = Some x -> bool_decide (a < length heap)%nat = true.
Proof. intros H%lookup_lt_Some. by apply bool_decide_eq_true. Qed.






(** X10. [schedule_maintenance()] right after [complete_project()] always
    succeeds; it never succeeds twice in a row (the second call returns the
    error and changes nothing); completing the road again makes it succeed
    again. *)
Theorem maintenance_after_completion :
  (forall now (self : RoadProject.t),
     let done := (RoadProject.complete_project now self).2 in
     RoadProject.schedule_maintenance done
     = ("Maintenance scheduled for " +:+ RoadProject.road_name self,
        RoadProject.set_status "maintenance" done)) /\
  (forall self : RoadProject.t,
     let once := (RoadProject.schedule_maintenance self).2 in
     RoadProject.schedule_maintenance once
     = ("Error: Road must be completed before scheduling maintenance", once)) /\
  (forall now (self : RoadProject.t),
     let once := (RoadProject.schedule_maintenance self).2 in
     RoadProject.status
       (RoadProject.schedule_maintenance (RoadProject.complete_project now once).2).2
     = "maintenance").
Proof.
  splits.
  - reflexivity.
  - intros self. cbn. unfold RoadProject.schedule_maintenance at 2 3.
    destruct (String.eqb (RoadProject.status self) "completed") eqn:E; cbn.
    + reflexivity.
    + unfold RoadProject.schedule_maintenance. by rewrite E.
  - reflexivity.
Qed.


Lemma sum_values_set k v (d : list (string * Z)) :
  sum_values (dict_set k v d) = sum_values d - dict_get_default k 0 d + v.
Proof.
  unfold dict_get_default. induction d as [|[k' v'] d IH]; cbn; [lia|].
  destruct (String.eqb k k') eqn:E; cbn; [lia|]. rewrite IH. lia.
Qed.

Lemma plan_types_snoc all_plans plan :
  plan_types (all_plans ++ [plan]) = count_type (plan_types all_plans) plan.
Proof. unfold plan_types. by rewrite fold_left_app. Qed.

Lemma plan_types_spec (plans : list DesignPlan.t) :
  exists counts,
    plan_types (map DesignPlan.get_details plans) = Some counts /\
    NoDup (map fst counts) /\
    (forall t, dict_get t counts
               = if decide (count_type_of t plans = 0%nat) then None
                 else Some (Z.of_nat (count_type_of t plans))) /\
    sum_values counts = Z.of_nat (length plans).
Proof.
  induction plans as [|plan plans IH] using rev_ind.
  - exists []. splits; [done | apply NoDup_nil_2 | done | done].
  - destruct IH as (d & Hd & Hnd & Hget & Hsum).
    rewrite map_app. cbn [map]. rewrite plan_types_snoc, Hd. cbn.
    eexists. split; [reflexivity|]. splits.
    + by apply dict_set_NoDup.
    + intros t. unfold count_type_of. rewrite filter_snoc, length_app.
      fold (count_type_of t plans).
      destruct (String.eqb_spec (DesignPlan.plan_type plan) t) as [<-|Hne]; cbn.
      * rewrite dict_get_set_eq. case_decide; [lia|]. f_equal.
        unfold dict_get_default. rewrite Hget. case_decide; lia.
      * rewrite dict_get_set_ne by done. rewrite Hget, Nat.add_0_r. done.
    + rewrite sum_values_set, Hsum, length_app. cbn. lia.
Qed.

Lemma filter_split_length {A} (f : A -> bool) (l : list A) :
  length l = (length (List.filter f l) + length (List.filter (fun x => negb (f x)) l))%nat.
Proof. induction l as [|x l IH]; [done|]. cbn. destruct (f x); cbn; lia. Qed.

Lemma mapM_map_total {A B C} (f : B -> option C) (g : A -> B) (h : A -> C) (l : list A) :
  (forall x, f (g x) = Some (h x)) -> mapM f (map g l) = Some (map h l).
Proof.
  intros Hf. apply mapM_Some_2. induction l; cbn; constructor; auto.
Qed.

Lemma filter_map_length {A B} (f : B -> bool) (g : A -> B) (l : list A) :
  length (List.filter f (map g l)) = length (List.filter (fun x => f (g x)) l).
Proof. induction l as [|x l IH]; [done|]. cbn. destruct (f (g x)); cbn; by rewrite IH. Qed.

(** X12. The summary of [examples/design_plans_example.py], computed from
    the snapshots of any list of plans: [approved_plans] is the number of
    approved plans, [pending_plans] the number of the others, and the
    [plan_types] breakdown has each type that occurs once, with the number of
    plans of that type, no other key, and counts that add up to the number of
    plans. *)
Theorem design_plans_summary (plans : list DesignPlan.t) :
  let all_plans := map DesignPlan.get_details plans in
  approved_plans all_plans
    = Some (Z.of_nat (length (List.filter DesignPlan.approved plans))) /\
  pending_plans all_plans
    = Some (Z.of_nat (length (List.filter (fun p => negb (DesignPlan.approved p)) plans))) /\
  exists counts,
    plan_types all_plans = Some counts /\
    NoDup (map fst counts) /\
    (forall t, dict_get t counts
               = if decide (count_type_of t plans = 0%nat) then None
                 else Some (Z.of_nat (count_type_of t plans))) /\
    sum_values counts = len all_plans.
Proof.
  cbn zeta.
  assert (approved_plans (map DesignPlan.get_details plans)
          = Some (Z.of_nat (length (List.filter DesignPlan.approved plans)))) as Ha.
  { unfold approved_plans.
    rewrite (mapM_map_total snapshot_approved DesignPlan.get_details DesignPlan.approved)
      by done.
    cbn. rewrite py_sum_ones, filter_map_length. done. }
  splits.
  - exact Ha.
  - unfold pending_plans. rewrite Ha. cbn. f_equal. unfold len. rewrite length_map.
    rewrite (filter_split_length DesignPlan.approved plans) at 1. lia.
  - destruct (plan_types_spec plans) as (d & Hd & Hnd & Hget & Hsum).
    exists d. splits; auto. unfold len. by rewrite length_map.
Qed.











End Sessions.

(** ** The theorems at work on the session of [main()] *)
Section Witnesses.
#[local] Existing Instance Sample.runtime.

Lemma main_world_reachable : reachable Sample.main_world.
Proof. exists Sample.main_session, Sample.main_log. reflexivity. Defined.

Lemma assign_design_plan_iff_witness :
  plan_heap Sample.main_world !! 0%nat = Some Sample.housing_plan /\
  exists msg self',
    HousingProject.assign_design_plan (plan_heap Sample.main_world) Sample.housing1 0
    = Some (msg, self') /\
    is_error msg = false /\ HousingProject.design_plan self' = Some 0%nat.
Proof.
  split; [reflexivity|].
  destruct (assign_design_plan_iff (plan_heap Sample.main_world) 0 Sample.housing_plan
              eq_refl) as [H _].
  destruct (H Sample.housing1) as (msg & self' & Heq & Hiff & Hok & _).
  assert (is_error msg = false) as Hmsg by (apply Hiff; split; reflexivity).
  exists msg, self'. split; [exact Heq|]. split; [exact Hmsg|]. apply (Hok Hmsg).
Defined.


Lemma schedule_maintenance_witness :
  RoadProject.status (RoadProject.schedule_maintenance Sample.road1).2 = "in_progress" /\
  is_error (RoadProject.schedule_maintenance Sample.road1).1 = true.
Proof.
  pose proof (schedule_maintenance_iff_completed Sample.road1) as H.
  destruct (RoadProject.schedule_maintenance Sample.road1) as [msg self'] eqn:E.
  destruct H as (_ & _ & H). destruct H as (_ & He & _ & Hs); [discriminate|].
  split; [exact Hs | exact He].
Defined.


Lemma approved_monotonic_witness :
  exists p', plan_heap Sample.main_world !! 0%nat = Some p' /\
             DesignPlan.approved p' = true.
Proof.
  destruct approved_monotonic as (_ & _ & _ & _ & H).
  apply (H Sample.early_session Sample.late_session Sample.early_log Sample.early_world
           Sample.main_log Sample.main_world 0%nat Sample.early_housing_plan);
    reflexivity.
Defined.

Lemma get_all_projects_counts_witness :
  reachable Sample.main_world /\
  company_heap Sample.main_world !! 0%nat = Some Sample.premier /\
  exists summary,
    call Sample.noon (Company_get_all_projects 0) Sample.main_world
    = Some (RDict summary, Sample.main_world) /\
    dict_get "total_active_projects" summary = Some (VInt 2).
Proof.
  split; [exact main_world_reachable|]. split; [reflexivity|].
  eexists. split.
  - exact (get_all_projects_counts Sample.noon Sample.main_world 0 Sample.premier
             main_world_reachable eq_refl).
  - reflexivity.
Defined.

Lemma complete_project_witness :
  HousingProject.status (HousingProject.complete_project Sample.noon
                           (HousingProject.__init__ "HP002" "Sunset Villas" "villa" 8)).2
  = "completed".
Proof.
  destruct (complete_project_unconditional Sample.noon) as [H _].
  specialize (H (HousingProject.__init__ "HP002" "Sunset Villas" "villa" 8)).
  destruct (HousingProject.complete_project Sample.noon _) as [msg self'].
  exact (proj1 H).
Defined.

Lemma list_design_plans_round_trip_witness :
  run Sample.main_session = Some (Sample.main_log, Sample.main_world) /\
  company_heap Sample.main_world !! 0%nat = Some Sample.premier /\
  created_plans 0 Sample.main_log = [0; 1]%nat /\
  exists plans,
    ConstructionCompany.list_design_plans (plan_heap Sample.main_world) Sample.premier
    = Some (map DesignPlan.get_details plans) /\
    length (map DesignPlan.get_details plans) = 2%nat.
Proof.
  split; [reflexivity|]. split; [reflexivity|]. split; [reflexivity|].
  destruct (list_design_plans_round_trip Sample.main_session Sample.main_log
              Sample.main_world 0 Sample.premier) as (_ & plans & _ & Hl & Hn & _).
  - reflexivity.
  - reflexivity.
  - exists plans. split; [exact Hl | exact Hn].
Defined.

Lemma design_plan_invariant_witness : design_plan_invariant Sample.main_world.
Proof.
  exact (proj1 design_plan_invariant_reachable Sample.main_world main_world_reachable).
Defined.


Lemma main_session_runs :
  run Sample.main_session = Some (Sample.main_log, Sample.main_world).
Proof. reflexivity. Defined.

Lemma nothing_removed_witness : continues Sample.early_world Sample.main_world.
Proof.
  exact (proj2 nothing_removed_or_rewritten Sample.early_session Sample.late_session
           Sample.early_log Sample.early_world Sample.main_log Sample.main_world
           eq_refl eq_refl).
Defined.

Lemma writes_receiver_only_witness :
  call Sample.noon (Housing_complete_project 0) Sample.main_world
  = Some Sample.after_completion /\
  plan_heap Sample.after_completion.2 !! 0%nat = Some Sample.housing_plan /\
  road_heap Sample.after_completion.2 !! 0%nat = Some Sample.road1 /\
  company_heap Sample.after_completion.2 !! 0%nat = Some Sample.premier.
Proof.
  split; [reflexivity|].
  destruct (call_writes_receiver_only Sample.noon (Housing_complete_project 0)
              Sample.main_world Sample.after_completion.1 Sample.after_completion.2
              eq_refl) as (Hp & _ & Hr & Hc & _).
  split; [|split].
  - apply Hp; [reflexivity | discriminate].
  - apply Hr; [reflexivity | discriminate].
  - apply Hc; [reflexivity | discriminate].
Defined.

Lemma line_item_counts_witness :
  housing_heap Sample.main_world !! 0%nat = Some Sample.housing1 /\
  length (List.filter (adds_materials 0) Sample.main_log) = 3%nat /\
  dict_get "materials_count" (HousingProject.get_project_info Sample.housing1)
  = Some (VInt (Z.of_nat (length (List.filter (adds_materials 0) Sample.main_log)))).
Proof.
  split; [reflexivity|]. split; [reflexivity|].
  exact (proj1 (line_item_counts Sample.main_session Sample.main_log Sample.main_world
                  main_session_runs) 0%nat Sample.housing1 eq_refl).
Defined.

Lemma project_lifecycle_witness :
  housing_lifecycle Sample.housing1 /\
  has_approved_plan (plan_heap Sample.main_world)
    (HousingProject.design_plan Sample.housing1).
Proof.
  destruct (proj1 (project_lifecycle Sample.main_world main_world_reachable)
              0%nat Sample.housing1 eq_refl) as [HL HP].
  split; [exact HL | apply HP; reflexivity].
Defined.

Lemma plan_is_what_the_log_wrote_witness :
  plan_heap Sample.main_world !! 0%nat = Some Sample.housing_plan /\
  omap (spec_write 0) Sample.main_log
  = [("bedrooms", "3"); ("bathrooms", "2"); ("floors", "2")] /\
  DesignPlan.specifications Sample.housing_plan
  = replay (omap (spec_write 0) Sample.main_log) /\
  DesignPlan.approved Sample.housing_plan = existsb (approves 0) Sample.main_log.
Proof.
  split; [reflexivity|]. split; [reflexivity|].
  destruct (plan_is_what_the_log_wrote Sample.main_session Sample.main_log
              Sample.main_world 0%nat Sample.housing_plan main_session_runs eq_refl)
    as (Hs & _ & _ & Ha).
  split; [exact Hs | exact Ha].
Defined.

Lemma list_projects_round_trip_witness :
  company_heap Sample.main_world !! 0%nat = Some Sample.premier /\
  created_housings 0 Sample.main_log = [0%nat] /\
  created_roads 0 Sample.main_log = [0%nat] /\
  exists projects,
    ConstructionCompany.list_housing_projects (housing_heap Sample.main_world)
      Sample.premier
    = Some (map HousingProject.get_project_info projects).
Proof.
  split; [reflexivity|]. split; [reflexivity|]. split; [reflexivity|].
  destruct (list_projects_round_trip Sample.main_session Sample.main_log
              Sample.main_world 0%nat Sample.premier main_session_runs eq_refl)
    as [(_ & projects & _ & Hl & _) _].
  exists projects. exact Hl.
Defined.

Lemma generate_report_contents_witness :
  exists report,
    call Sample.noon (Company_generate_report 0) Sample.main_world
    = Some (RStr report, Sample.main_world).
Proof.
  destruct (generate_report_contents Sample.noon Sample.main_world 0%nat Sample.premier
              main_world_reachable eq_refl) as (hs & rs & _ & _ & H).
  eexists. exact H.
Defined.




End Witnesses.
